(** * go-matrix-bot: the bot session and its event dispatch

    A shallow embedding of package [matrix] (type [Bot] with [OnMessage],
    [SendHTML], [SendReply], [Run] and [Stop]).  The mautrix client, the
    crypto helper and the user's handlers are external: every call the bot
    makes to them is recorded in a trace, and what they answer is a
    parameter of the development. *)

From Stdlib Require Import Ascii String List Bool Arith ZArith Lia.
Import ListNotations.
Open Scope string_scope.
Open Scope list_scope.

(** ** The mautrix types the bot touches *)

(** Package [id]: identifiers are strings. *)
Module id.
Definition RoomID := string.
Definition UserID := string.
End id.

(** Package [event]. *)
Module event.

(** [event.Type]: the two kinds the bot routes, and the others. *)
Inductive EventType := EventMessage | StateMember | OtherType (name : string).

Definition MessageType := string.
Definition MsgText : MessageType := "m.text".

Definition Format := string.
Definition FormatHTML : Format := "org.matrix.custom.html".

Definition Membership_ := string.
Definition MembershipInvite : Membership_ := "invite".
Definition MembershipJoin : Membership_ := "join".
Definition MembershipLeave : Membership_ := "leave".
Definition MembershipBan : Membership_ := "ban".

Record Mentions := {
  UserIDs : list id.UserID;
  Room : bool
}.

(** The [Mentions_] field is a pointer in Go: [None] is nil. *)
Record MessageEventContent := {
  MsgType : MessageType;
  Body : string;
  Format_ : Format;
  FormattedBody : string;
  Mentions_ : option Mentions
}.

Record MemberEventContent := {
  Membership : Membership_
}.

(** [Content.Parsed]: what the event's JSON was parsed into. *)
Inductive Content :=
| ParsedMessage (m : MessageEventContent)
| ParsedMember (m : MemberEventContent)
| Unparsed.

(** [StateKey] is a [*string]. *)
Record Event := {
  StateKey : option string;
  Sender : id.UserID;
  Type_ : EventType;
  RoomID : id.RoomID;
  Content_ : Content
}.

(** [evt.GetStateKey()]: the empty string for a nil state key. *)
Definition GetStateKey (evt : Event) : string :=
  match StateKey evt with
  | Some k => k
  | None => ""
  end.

(** [Content.AsMessage()] and [Content.AsMember()] give a zero value when
    the content was parsed as something else. *)
Definition AsMessage (c : Content) : MessageEventContent :=
  match c with
  | ParsedMessage m => m
  | _ => {| MsgType := ""; Body := ""; Format_ := ""; FormattedBody := "";
            Mentions_ := None |}
  end.

Definition AsMember (c : Content) : MemberEventContent :=
  match c with
  | ParsedMember m => m
  | _ => {| Membership := "" |}
  end.

End event.

(** ** Go errors *)

(** An [error] value: the sentinels of package [context], a plain message, or
  an error wrapped by [fmt.Errorf("...: %w", err)]. *)
Inductive error :=
| Canceled
| DeadlineExceeded
| ErrorString (msg : string)
| Wrapf (prefix : string) (inner : error).

(** [errors.Is(err, context.Canceled)]: follows the [Unwrap] chain. *)
Fixpoint Is_Canceled (err : error) : bool :=
match err with
| Canceled => true
| Wrapf _ inner => Is_Canceled inner
| _ => false
end.

(** The result of a call: it returns, or the goroutine panics. *)
Inductive Outcome (A : Type) :=
| Returns (a : A)
| Panics (reason : string).
Arguments Returns {A} a.
Arguments Panics {A} reason.

(** ** Configuration *)

Record Config := {
Homeserver : string;
Username : string;
Password : string;
Database : string;
Debug : bool
}.

Definition is_empty (s : string) : bool :=
match s with
| EmptyString => true
| _ => false
end.

Definition Validate (c : Config) : option error :=
if is_empty (Homeserver c) then Some (ErrorString "matrix: homeserver URL is required")
else if is_empty (Username c) then Some (ErrorString "matrix: username is required")
else if is_empty (Password c) then Some (ErrorString "matrix: password is required")
else None.

(** ** Logging *)

Inductive Level := InfoLevel | ErrorLevel.

(** One zerolog event: level, the [Err] attached, the [Str] fields in the
  order they were added, and the message. *)
Record LogEntry := {
log_level : Level;
log_err : option error;
log_fields : list (string * string);
log_msg : string
}.

(** ** The mautrix client and the crypto helper, as the bot sees them *)

Module mautrix.

(** The two closures [Run] hands to [syncer.OnEventType]. *)
Inductive Listener := onMessage | onMember.

Record ReqLogin := {
  Type_ : string;
  IdentifierType : string;
  User : string;
  Password : string;
  StoreCredentials : bool
}.

Definition AuthTypePassword := "m.login.password".
Definition IdentifierTypeUser := "m.id.user".

(** A [*mautrix.Client]: the address it was built for, the identity it is
    logged in as (empty until login), the listeners of its
    [DefaultSyncer] in the order they were added, and whether [Log] and
    [Crypto] were assigned. *)
Record Client := {
  HomeserverURL : string;
  UserID : id.UserID;
  listeners : list (event.EventType * Listener);
  Log : option bool;
  Crypto : bool
}.

(** What [mautrix.NewClient(homeserverURL, "", "")] returns on success. *)
Definition NewClient_ok (homeserverURL : string) : Client :=
  {| HomeserverURL := homeserverURL; UserID := ""; listeners := [];
     Log := None; Crypto := false |}.

(** [syncer.OnEventType(evtType, callback)] appends the callback. *)
Definition OnEventType (evtType : event.EventType) (l : Listener) (c : Client) : Client :=
  {| HomeserverURL := HomeserverURL c; UserID := UserID c;
     listeners := listeners c ++ [(evtType, l)];
     Log := Log c; Crypto := Crypto c |}.

Definition set_Log (debug : bool) (c : Client) : Client :=
  {| HomeserverURL := HomeserverURL c; UserID := UserID c;
     listeners := listeners c; Log := Some debug; Crypto := Crypto c |}.

(** After a successful [cryptoHelper.Init] the client is logged in, and
    [Run] assigns [client.Crypto]. *)
Definition logged_in (user : id.UserID) (c : Client) : Client :=
  {| HomeserverURL := HomeserverURL c; UserID := user;
     listeners := listeners c; Log := Log c; Crypto := Crypto c |}.

Definition set_Crypto (c : Client) : Client :=
  {| HomeserverURL := HomeserverURL c; UserID := UserID c;
     listeners := listeners c; Log := Log c; Crypto := true |}.

End mautrix.

Module cryptohelper.

Record CryptoHelper := {
  pickleKey : string;
  database : string;
  LoginAs : option mautrix.ReqLogin
}.

End cryptohelper.

(** ** The bot *)

Section Bot.

(** A [MessageHandler] is a closure of the caller.  What it does when it is
    called is the parameter [call], declared below. *)
Context {MessageHandler : Type}.

(** Every call the bot makes to the outside, in program order.  [Invoke]
    is one handler call of the dispatch loop, with what the handler did
    while it ran. *)
#[warnings="-register-all"]
Inductive Action :=
| Invoke (handler : MessageHandler) (roomID : id.RoomID) (sender : id.UserID)
         (message : event.MessageEventContent) (inside : list Action)
| SendText_ (roomID : id.RoomID) (text : string)
| SendMessageEvent_ (roomID : id.RoomID) (evtType : event.EventType)
                    (content : event.MessageEventContent)
| JoinRoomByID_ (roomID : id.RoomID)
| Log_ (entry : LogEntry)
| NewClient_ (homeserverURL userID accessToken : string)
| OnEventType_ (evtType : event.EventType) (l : mautrix.Listener)
| NewCryptoHelper_ (pickleKey database : string)
| Init_ (login : mautrix.ReqLogin)
| SyncWithContext_
| Done_
| cancelSync_
| Wait_
| Close_.

(** A computation: the calls it made, and how it ended. *)
Definition Eff (A : Type) : Type := list Action * Outcome A.

Definition ret {A : Type} (a : A) : Eff A := ([], Returns a).

Definition bind {A B : Type} (m : Eff A) (k : A -> Eff B) : Eff B :=
  match snd m with
  | Returns a => (fst m ++ fst (k a), snd (k a))
  | Panics reason => (fst m, Panics reason)
  end.

Definition emit (a : Action) : Eff unit := ([a], Returns tt).

Definition panic {A : Type} (reason : string) : Eff A := ([], Panics reason).

Definition calls {A : Type} (m : Eff A) : list Action := fst m.
Definition outcome {A : Type} (m : Eff A) : Outcome A := snd m.

Variable call : MessageHandler -> id.RoomID -> id.UserID ->
                event.MessageEventContent -> Eff unit.

(** The fields of [Bot].  [log] is the zero logger ([None]) until [Run] builds
    one, and then records whether debug output is on; [cancelSync], a
    [func()], is nil ([false]) or set; [syncWait], a [sync.WaitGroup], is its
    counter. *)
Record Bot := {
  config : Config;
  client : option mautrix.Client;
  crypto : option cryptohelper.CryptoHelper;
  log : option bool;
  handlers : list MessageHandler;
  cancelSync : bool;
  syncWait : nat
}.

Definition NewBot (cfg : Config) : Bot + error :=
  match Validate cfg with
  | Some err => inr err
  | None =>
      let cfg' :=
        if is_empty (Database cfg)
        then {| Homeserver := Homeserver cfg; Username := Username cfg;
                Password := Password cfg; Database := "matrix-bot.db";
                Debug := Debug cfg |}
        else cfg in
      inl {| config := cfg'; client := None; crypto := None; log := None;
             handlers := []; cancelSync := false; syncWait := 0 |}
  end.

Definition OnMessage (handler : MessageHandler) (b : Bot) : Bot :=
  {| config := config b; client := client b; crypto := crypto b;
     log := log b; handlers := handlers b ++ [handler];
     cancelSync := cancelSync b; syncWait := syncWait b |}.

(** [b.client] as the receiver of a call or of a field read.  A field read of
    a nil client panics in the bot's own code.  A method call on a nil client
    enters mautrix with a nil receiver; it is taken to panic there, before
    anything is transmitted. *)
Definition the_client (b : Bot) : Eff mautrix.Client :=
  match client b with
  | Some c => ret c
  | None => panic "invalid memory address or nil pointer dereference"
  end.

Local Notation "x <- m ;; k" := (bind m (fun x => k))
  (at level 61, m at next level, right associativity).

(** *** Send operations *)

(** What the homeserver answers to a transmitted event and to a join: nil or
    an error. *)
Variable transmit : id.RoomID -> event.EventType -> event.MessageEventContent -> option error.
Variable transmit_text : id.RoomID -> string -> option error.
Variable join : id.RoomID -> option error.

Definition SendMessageEvent (c : mautrix.Client) (roomID : id.RoomID)
    (evtType : event.EventType) (content : event.MessageEventContent) : Eff (option error) :=
  ([SendMessageEvent_ roomID evtType content], Returns (transmit roomID evtType content)).

Definition JoinRoomByID (c : mautrix.Client) (roomID : id.RoomID) : Eff (option error) :=
  ([JoinRoomByID_ roomID], Returns (join roomID)).

Definition SendText (b : Bot) (roomID : id.RoomID) (text : string) : Eff (option error) :=
  c <- the_client b ;;
  ([SendText_ roomID text], Returns (transmit_text roomID text)).

(** The content both rich sends start from. *)
Definition html_content (text html : string) : event.MessageEventContent :=
  {| event.MsgType := event.MsgText;
     event.Body := text;
     event.Format_ := event.FormatHTML;
     event.FormattedBody := html;
     event.Mentions_ := None |}.

Definition set_Mentions (m : event.Mentions) (content : event.MessageEventContent)
    : event.MessageEventContent :=
  {| event.MsgType := event.MsgType content;
     event.Body := event.Body content;
     event.Format_ := event.Format_ content;
     event.FormattedBody := event.FormattedBody content;
     event.Mentions_ := Some m |}.

Definition SendHTML (b : Bot) (roomID : id.RoomID) (text html : string) : Eff (option error) :=
  c <- the_client b ;;
  SendMessageEvent c roomID event.EventMessage (html_content text html).

Definition SendReply (b : Bot) (roomID : id.RoomID) (text html : string)
    (mentionUserIDs : list id.UserID) : Eff (option error) :=
  let content := html_content text html in
  let content :=
    if (0 <? length mentionUserIDs)%nat
    then set_Mentions {| event.UserIDs := mentionUserIDs; event.Room := true |} content
    else content in
  c <- the_client b ;;
  SendMessageEvent c roomID event.EventMessage content.

(** *** The two event routes of [Run] *)

(** One iteration of the loop over [b.handlers]: the call, with what the
    handler did, ending the way the handler ended. *)
Definition invoke (handler : MessageHandler) (roomID : id.RoomID) (sender : id.UserID)
    (msg : event.MessageEventContent) : Eff unit :=
  let r := call handler roomID sender msg in
  ([Invoke handler roomID sender msg (calls r)], outcome r).

(** [for _, handler := range hs { handler(ctx, roomID, sender, msg) }].  Go has
    no [recover] here: a panic leaves the loop. *)
Fixpoint range_handlers (hs : list MessageHandler) (roomID : id.RoomID) (sender : id.UserID)
    (msg : event.MessageEventContent) : Eff unit :=
  match hs with
  | [] => ret tt
  | handler :: rest =>
      _ <- invoke handler roomID sender msg ;;
      range_handlers rest roomID sender msg
  end.

(** The closure registered for [event.EventMessage]. *)
Definition on_message (b : Bot) (evt : event.Event) : Eff unit :=
  let msg := event.AsMessage (event.Content_ evt) in
  range_handlers (handlers b) (event.RoomID evt) (event.Sender evt) msg.

Definition join_failed (evt : event.Event) (joinErr : error) : LogEntry :=
  {| log_level := ErrorLevel;
     log_err := Some joinErr;
     log_fields := [("room_id", event.RoomID evt); ("inviter", event.Sender evt)];
     log_msg := "Failed to join room after invite" |}.

Definition join_done (evt : event.Event) : LogEntry :=
  {| log_level := InfoLevel;
     log_err := None;
     log_fields := [("room_id", event.RoomID evt); ("inviter", event.Sender evt)];
     log_msg := "Joined room after invite" |}.

(** The closure registered for [event.StateMember]. *)
Definition on_member (b : Bot) (evt : event.Event) : Eff unit :=
  c <- the_client b ;;
  if String.eqb (event.GetStateKey evt) (mautrix.UserID c)
     && String.eqb (event.Membership (event.AsMember (event.Content_ evt)))
                   event.MembershipInvite
  then
    joinErr <- JoinRoomByID c (event.RoomID evt) ;;
    match joinErr with
    | Some err => emit (Log_ (join_failed evt err))
    | None => emit (Log_ (join_done evt))
    end
  else ret tt.

(** What the syncer does with an event: every listener registered for the
    event's type, in the order of registration. *)
Definition run_listener (b : Bot) (l : mautrix.Listener) (evt : event.Event) : Eff unit :=
  match l with
  | mautrix.onMessage => on_message b evt
  | mautrix.onMember => on_member b evt
  end.

Definition EventType_eqb (x y : event.EventType) : bool :=
  match x, y with
  | event.EventMessage, event.EventMessage => true
  | event.StateMember, event.StateMember => true
  | event.OtherType a, event.OtherType b => String.eqb a b
  | _, _ => false
  end.

Fixpoint notify (b : Bot) (ls : list (event.EventType * mautrix.Listener))
    (evt : event.Event) : Eff unit :=
  match ls with
  | [] => ret tt
  | (ty, l) :: rest =>
      _ <- (if EventType_eqb ty (event.Type_ evt) then run_listener b l evt else ret tt) ;;
      notify b rest evt
  end.

(** *** Run: bootstrap *)

Definition set_client (c : mautrix.Client) (b : Bot) : Bot :=
  {| config := config b; client := Some c; crypto := crypto b; log := log b;
     handlers := handlers b; cancelSync := cancelSync b; syncWait := syncWait b |}.

Definition set_log (debug : bool) (b : Bot) : Bot :=
  {| config := config b; client := client b; crypto := crypto b; log := Some debug;
     handlers := handlers b; cancelSync := cancelSync b; syncWait := syncWait b |}.

Definition set_crypto (h : cryptohelper.CryptoHelper) (b : Bot) : Bot :=
  {| config := config b; client := client b; crypto := Some h; log := log b;
     handlers := handlers b; cancelSync := cancelSync b; syncWait := syncWait b |}.

(** [b.cancelSync = cancelSync; b.syncWait.Add(1)]. *)
Definition set_cancelSync_Add (b : Bot) : Bot :=
  {| config := config b; client := client b; crypto := crypto b; log := log b;
     handlers := handlers b; cancelSync := true; syncWait := S (syncWait b) |}.

(** [b.syncWait.Done()]. *)
Definition Done (b : Bot) : Bot :=
  {| config := config b; client := client b; crypto := crypto b; log := log b;
     handlers := handlers b; cancelSync := cancelSync b; syncWait := pred (syncWait b) |}.

(** What the outside answers during bootstrap: the error of
    [mautrix.NewClient], the error of [cryptohelper.NewCryptoHelper], and for
    [cryptoHelper.Init] the identity the login gave or an error.  [Init] logs
    in and then sets up the key store, so it can fail with the client already
    logged in: [Init_login] is the identity a failed [Init] left in the client,
    if it left one. *)
Record Boot := {
  NewClient_err : option error;
  NewCryptoHelper_err : option error;
  Init_res : id.UserID + error;
  Init_login : option id.UserID
}.

Definition login_request (cfg : Config) : mautrix.ReqLogin :=
  {| mautrix.Type_ := mautrix.AuthTypePassword;
     mautrix.IdentifierType := mautrix.IdentifierTypeUser;
     mautrix.User := Username cfg;
     mautrix.Password := Password cfg;
     mautrix.StoreCredentials := true |}.

Definition running (cfg : Config) : LogEntry :=
  {| log_level := InfoLevel;
     log_err := None;
     log_fields := [("user", Username cfg)];
     log_msg := "Matrix bot is running" |}.

(** [Run] up to and including [b.syncWait.Add(1)]: the bot it leaves, the calls
    it made, and the error [Run] returns when a step fails ([None]: bootstrap
    is through and [Run] goes on to start the sync goroutine). *)
Definition bootstrap (w : Boot) (b : Bot) : Bot * list Action * option error :=
  let t0 := [NewClient_ (Homeserver (config b)) "" ""] in
  match NewClient_err w with
  | Some err => (b, t0, Some (Wrapf "matrix: failed to create client" err))
  | None =>
      let c := mautrix.NewClient_ok (Homeserver (config b)) in
      let b := set_log (Debug (config b)) (set_client c b) in
      let c := mautrix.set_Log (Debug (config b)) c in
      let c := mautrix.OnEventType event.EventMessage mautrix.onMessage c in
      let c := mautrix.OnEventType event.StateMember mautrix.onMember c in
      let b := set_client c b in
      let t1 := t0 ++ [OnEventType_ event.EventMessage mautrix.onMessage;
                       OnEventType_ event.StateMember mautrix.onMember;
                       NewCryptoHelper_ "meow" (Database (config b))] in
      match NewCryptoHelper_err w with
      | Some err => (b, t1, Some (Wrapf "matrix: failed to create crypto helper" err))
      | None =>
          let cryptoHelper :=
            {| cryptohelper.pickleKey := "meow";
               cryptohelper.database := Database (config b);
               cryptohelper.LoginAs := Some (login_request (config b)) |} in
          let t2 := t1 ++ [Init_ (login_request (config b))] in
          match Init_res w with
          | inr err =>
              let c :=
                match Init_login w with
                | Some user => mautrix.logged_in user c
                | None => c
                end in
              (set_client c b, t2, Some (Wrapf "matrix: failed to init crypto" err))
          | inl user =>
              let b := set_crypto cryptoHelper b in
              let b := set_client (mautrix.set_Crypto (mautrix.logged_in user c)) b in
              let t3 := t2 ++ [Log_ (running (config b))] in
              (set_cancelSync_Add b, t3, None)
          end
      end
  end.

(** *** Run, the sync goroutine and Stop, interleaved *)

(** The sync goroutine: not started, inside [SyncWithContext], or returned. *)
Inductive Task := Absent | Syncing | Exited.

(** The caller of [Run]: not yet called, blocked on [<-syncCtx.Done()], or
    returned. *)
Inductive RunState := NotCalled | Waiting | Returned (err : option error).

(** The caller of [Stop]: not inside [Stop], blocked in [b.syncWait.Wait()], or
    returned. *)
Inductive StopState := NoStop | InWait | Stopped (err : option error).

(** [ctxDone]: the caller's context is done.  [cancelled]: the cancel function
    of [context.WithCancel(ctx)] was called.  [syncCtx] is done when either
    holds. *)
Record Sys := {
  bot : Bot;
  ctxDone : bool;
  cancelled : bool;
  task : Task;
  run : RunState;
  stop : StopState;
  trace : list Action
}.

Definition syncCtxDone (s : Sys) : bool := ctxDone s || cancelled s.

Definition init (b : Bot) : Sys :=
  {| bot := b; ctxDone := false; cancelled := false; task := Absent;
     run := NotCalled; stop := NoStop; trace := [] |}.

(** What can happen next: [Run] is called and the outside answers [w]; the
    caller's context becomes done; [SyncWithContext] returns [r] in the
    goroutine; the wait of [Run] ends; [Stop] is called; the wait of [Stop]
    ends and [Close] (when called) answers [r]. *)
Inductive Ev :=
| CallRun (w : Boot)
| CancelCtx
| SyncReturns (r : option error)
| RunWakes
| CallStop
| WaitReturns (r : option error).

Definition sync_error (err : error) : LogEntry :=
  {| log_level := ErrorLevel;
     log_err := Some err;
     log_fields := [];
     log_msg := "Sync error" |}.

(** The body of the goroutine after [SyncWithContext] returned [syncErr],
    with the deferred [Done] last. *)
Definition after_sync (syncErr : option error) : list Action :=
  match syncErr with
  | Some err => if negb (Is_Canceled err) then [Log_ (sync_error err); Done_] else [Done_]
  | None => [Done_]
  end.

(** One step of the bot under event [e], or [None] when [e] cannot happen in
    [s].  A bot is run once, and [Stop] has one caller at a time.  The part
    of [Run] before the sync is one step: the runs followed are those in
    which no [Stop] begins while [Run] is in that part.
    [SyncWithContext] may return anything at any time; the wait of [Run] ends
    only on a done [syncCtx] (line 228), the wait of [Stop] only on a wait
    group at zero (line 237). *)
Definition step (s : Sys) (e : Ev) : option Sys :=
  match e with
  | CallRun w =>
      match run s with
      | NotCalled =>
          let '(b, t, r) := bootstrap w (bot s) in
          match r with
          | Some err =>
              Some {| bot := b; ctxDone := ctxDone s; cancelled := cancelled s;
                      task := task s; run := Returned (Some err); stop := stop s;
                      trace := trace s ++ t |}
          | None =>
              Some {| bot := b; ctxDone := ctxDone s; cancelled := false;
                      task := Syncing; run := Waiting; stop := stop s;
                      trace := trace s ++ t ++ [SyncWithContext_] |}
          end
      | _ => None
      end
  | CancelCtx =>
      Some {| bot := bot s; ctxDone := true; cancelled := cancelled s;
              task := task s; run := run s; stop := stop s; trace := trace s |}
  | SyncReturns r =>
      match task s with
      | Syncing =>
          Some {| bot := Done (bot s); ctxDone := ctxDone s; cancelled := cancelled s;
                  task := Exited; run := run s; stop := stop s;
                  trace := trace s ++ after_sync r |}
      | _ => None
      end
  | RunWakes =>
      match run s with
      | Waiting =>
          if syncCtxDone s
          then Some {| bot := bot s; ctxDone := ctxDone s; cancelled := cancelled s;
                       task := task s; run := Returned None; stop := stop s;
                       trace := trace s |}
          else None
      | _ => None
      end
  | CallStop =>
      match stop s with
      | InWait => None
      | _ =>
          if cancelSync (bot s)
          then Some {| bot := bot s; ctxDone := ctxDone s; cancelled := true;
                       task := task s; run := run s; stop := InWait;
                       trace := trace s ++ [cancelSync_; Wait_] |}
          else Some {| bot := bot s; ctxDone := ctxDone s; cancelled := cancelled s;
                       task := task s; run := run s; stop := InWait;
                       trace := trace s ++ [Wait_] |}
      end
  | WaitReturns r =>
      match stop s with
      | InWait =>
          if (syncWait (bot s) =? 0)%nat
          then
            match crypto (bot s) with
            | Some _ =>
                Some {| bot := bot s; ctxDone := ctxDone s; cancelled := cancelled s;
                        task := task s; run := run s; stop := Stopped r;
                        trace := trace s ++ [Close_] |}
            | None =>
                Some {| bot := bot s; ctxDone := ctxDone s; cancelled := cancelled s;
                        task := task s; run := run s; stop := Stopped None;
                        trace := trace s |}
            end
          else None
      | _ => None
      end
  end.

Fixpoint exec (s : Sys) (es : list Ev) : option Sys :=
  match es with
  | [] => Some s
  | e :: rest =>
      match step s e with
      | Some s' => exec s' rest
      | None => None
      end
  end.

End Bot.

(** ** Registration, observation and sample data *)

(** [OnMessage] called once for each handler of [hs], in order. *)
Definition register {MessageHandler : Type} (hs : list MessageHandler)
    (b : Bot (MessageHandler := MessageHandler)) : Bot :=
  fold_left (fun b h => OnMessage h b) hs b.

(** The trace the dispatch loop leaves when it calls every handler of [hs]
    with the same arguments. *)
Definition invocations {MessageHandler : Type}
    (call : MessageHandler -> id.RoomID -> id.UserID -> event.MessageEventContent -> Eff unit)
    (hs : list MessageHandler) (roomID : id.RoomID) (sender : id.UserID)
    (msg : event.MessageEventContent) : list Action :=
  map (fun h => Invoke h roomID sender msg (calls (call h roomID sender msg))) hs.

(** The rooms of the join calls of a trace, and the handlers it invoked. *)
Fixpoint joins {MessageHandler : Type} (t : list (Action (MessageHandler := MessageHandler)))
    : list id.RoomID :=
  match t with
  | [] => []
  | JoinRoomByID_ roomID :: rest => roomID :: joins rest
  | _ :: rest => joins rest
  end.

Fixpoint invoked {MessageHandler : Type} (t : list (Action (MessageHandler := MessageHandler)))
    : list MessageHandler :=
  match t with
  | [] => []
  | Invoke h _ _ _ _ :: rest => h :: invoked rest
  | _ :: rest => invoked rest
  end.

Fixpoint syncs {MessageHandler : Type} (t : list (Action (MessageHandler := MessageHandler)))
    : nat :=
  match t with
  | [] => 0
  | SyncWithContext_ :: rest => S (syncs rest)
  | _ :: rest => syncs rest
  end.

(** Three handlers: the echo handler of the README, one that panics, and one
    that only returns. *)
Inductive Sample := echo | faulty | audit.

Definition sample_call (h : Sample) (roomID : id.RoomID) (sender : id.UserID)
    (msg : event.MessageEventContent) : Eff (MessageHandler := Sample) unit :=
  match h with
  | echo => ([SendText_ roomID (String.append "Echo: " (event.Body msg))], Returns tt)
  | faulty => ([], Panics "handler failed")
  | audit => ([], Returns tt)
  end.

Definition sample_config : Config :=
  {| Homeserver := "https://example"; Username := "bot"; Password := "pw";
     Database := ""; Debug := false |}.

Definition sample_bot : Bot (MessageHandler := Sample) :=
  {| config := {| Homeserver := "https://example"; Username := "bot"; Password := "pw";
                  Database := "matrix-bot.db"; Debug := false |};
     client := None; crypto := None; log := None; handlers := [];
     cancelSync := false; syncWait := 0 |}.

Definition sample_message : event.Event :=
  {| event.StateKey := None;
     event.Sender := "@alice:example";
     event.Type_ := event.EventMessage;
     event.RoomID := "!R1:example";
     event.Content_ := event.ParsedMessage
       {| event.MsgType := event.MsgText; event.Body := "hi"; event.Format_ := "";
          event.FormattedBody := ""; event.Mentions_ := None |} |}.

Definition sample_member (subject : string) (membership : string) : event.Event :=
  {| event.StateKey := Some subject;
     event.Sender := "@alice:example";
     event.Type_ := event.StateMember;
     event.RoomID := "!R1:example";
     event.Content_ := event.ParsedMember {| event.Membership := membership |} |}.

Definition all_fine : Boot :=
  {| NewClient_err := None; NewCryptoHelper_err := None;
     Init_res := inl "@bot:example"; Init_login := None |}.

Definition no_key_store : Boot :=
  {| NewClient_err := None;
     NewCryptoHelper_err := Some (ErrorString "unable to open database file");
     Init_res := inl "@bot:example"; Init_login := None |}.

Definition never_fails (roomID : id.RoomID) (evtType : event.EventType)
    (content : event.MessageEventContent) : option error := None.

Definition join_forbidden (roomID : id.RoomID) : option error :=
  Some (ErrorString "M_FORBIDDEN").

(** The sample bot after a bootstrap in which nothing failed, and its
    client. *)
Definition sample_running : Bot (MessageHandler := Sample) :=
  fst (fst (bootstrap all_fine sample_bot)).

Definition sample_client : mautrix.Client :=
  {| mautrix.HomeserverURL := "https://example";
     mautrix.UserID := "@bot:example";
     mautrix.listeners := [(event.EventMessage, mautrix.onMessage);
                           (event.StateMember, mautrix.onMember)];
     mautrix.Log := Some false;
     mautrix.Crypto := true |}.

(** The listeners of a client on which [Run] installed its two routes. *)
Definition both_routes : list (event.EventType * mautrix.Listener) :=
  [(event.EventMessage, mautrix.onMessage); (event.StateMember, mautrix.onMember)].

(** The session is ready for traffic: the client is in place, logged in
    behind the crypto helper and carrying both routes, and the helper is
    kept for [Stop]. *)
Definition ready {MessageHandler : Type} (b : Bot (MessageHandler := MessageHandler)) : Prop :=
  exists c h,
    client b = Some c /\ crypto b = Some h
    /\ mautrix.listeners c = both_routes /\ mautrix.Crypto c = true.

(** The three prefixes [Run] wraps a bootstrap error in. *)
Definition phases : list string :=
  ["matrix: failed to create client";
   "matrix: failed to create crypto helper";
   "matrix: failed to init crypto"].

(** The calls one [Stop] makes on bot [b], in order. *)
Definition Stop_calls {MessageHandler : Type} (b : Bot (MessageHandler := MessageHandler))
    : list (Action (MessageHandler := MessageHandler)) :=
  (if cancelSync b then [cancelSync_] else [])
  ++ [Wait_]
  ++ match crypto b with Some _ => [Close_] | None => [] end.

(** A bot as [NewBot] and [OnMessage] leave it: nothing of [Run] in it. *)
Definition fresh {MessageHandler : Type} (b : Bot (MessageHandler := MessageHandler)) : Prop :=
  client b = None /\ crypto b = None /\ cancelSync b = false /\ syncWait b = 0.

(** While the sync goroutine was never started, the bot holds no crypto
    helper, no cancel function, and a wait group at zero. *)
Definition unstarted {MessageHandler : Type} (s : @Sys MessageHandler) : Prop :=
  task s = Absent ->
  crypto (bot s) = None /\ cancelSync (bot s) = false /\ syncWait (bot s) = 0.

(** [Run] has returned nil only if its derived context is done. *)
Definition returned_after_done {MessageHandler : Type} (s : @Sys MessageHandler) : Prop :=
  run s = Returned None -> syncCtxDone s = true.


(** ** The rest of the package *)

(** [GetEnvironmentConfig], with the environment as the function
    [os.Getenv] computes: the value of a variable, empty when it is unset. *)
Definition GetEnvironmentConfig (Getenv : string -> string) : Config :=
  {| Homeserver := Getenv "MATRIX_API_URL";
     Username := Getenv "MATRIX_API_USER";
     Password := Getenv "MATRIX_API_PASS";
     Database := "matrix-bot.db";
     Debug := String.eqb (Getenv "MATRIX_DEBUG") "true" |}.

(** [b.Client()]. *)
Definition Client {MessageHandler : Type} (b : @Bot MessageHandler) : option mautrix.Client :=
  client b.

(** [err.Error()]: [fmt.Errorf("prefix: %w", err)] prints the prefix, a colon
    and the wrapped error. *)
Fixpoint Error (err : error) : string :=
  match err with
  | Canceled => "context canceled"
  | DeadlineExceeded => "context deadline exceeded"
  | ErrorString msg => msg
  | Wrapf prefix inner => String.append prefix (String.append ": " (Error inner))
  end.

(** The calls of a [Run] whose bootstrap goes through, up to the start of the
    sync, for a bot configured with [cfg]. *)
Definition Run_calls {MessageHandler : Type} (cfg : Config) : list (@Action MessageHandler) :=
  [NewClient_ (Homeserver cfg) "" "";
   OnEventType_ event.EventMessage mautrix.onMessage;
   OnEventType_ event.StateMember mautrix.onMember;
   NewCryptoHelper_ "meow" (Database cfg);
   Init_ (login_request cfg);
   Log_ (running cfg);
   SyncWithContext_].

(** What holds of the bot in every state of a run that began with a bot
    fresh from [NewBot] and [OnMessage]: [Run] was called before the
    goroutine exists, the wait group counts the running goroutine, and the
    crypto helper and the cancel function are set exactly when the goroutine
    was started. *)
Definition coherent {MessageHandler : Type} (s : @Sys MessageHandler) : Prop :=
  match task s with
  | Absent =>
      crypto (bot s) = None /\ cancelSync (bot s) = false /\ syncWait (bot s) = 0
  | Syncing =>
      crypto (bot s) <> None /\ cancelSync (bot s) = true /\ syncWait (bot s) = 1
      /\ run s <> NotCalled
  | Exited =>
      crypto (bot s) <> None /\ cancelSync (bot s) = true /\ syncWait (bot s) = 0
      /\ run s <> NotCalled
  end.

(** ** Handlers of the README and of the examples *)

(** The functions of Go's [strings] the handlers use, on byte strings. *)
Module strings.

(** [len(s) >= len(prefix) && s[:len(prefix)] == prefix]. *)
Definition HasPrefix (s prefix : string) : bool :=
  (String.length prefix <=? String.length s)%nat
  && String.eqb (substring 0 (String.length prefix) s) prefix.

(** [s[len(prefix):]] when [s] has the prefix, [s] otherwise. *)
Definition TrimPrefix (s prefix : string) : string :=
  if HasPrefix s prefix
  then substring (String.length prefix) (String.length s - String.length prefix) s
  else s.

(** [strings.Join(parts, sep)]. *)
Definition Join (parts : list string) (sep : string) : string := String.concat sep parts.

End strings.

Definition LF : string := String (Ascii.ascii_of_nat 10) EmptyString.

(** What a handler of the examples does besides returning: it prints, it
    calls the bot, it asks Gitea, it queries Ollama. *)
Inductive Obs {MessageHandler : Type} :=
| Stdout (text : string)
| Stderr (text : string)
| OnBot (a : @Action MessageHandler)
| GetAllRepos_ (owner : string)
| GetAllIssues_ (owner repo : string)
| Query_ (model prompt temperature : string).

(** [_ = bot.Send...(...)]: the calls of the send, its error dropped. *)
Definition dropped {MessageHandler : Type} (m : @Eff MessageHandler (option error))
    : list (@Obs MessageHandler) * Outcome unit :=
  (map OnBot (fst m),
   match snd m with
   | Returns _ => Returns tt
   | Panics reason => Panics reason
   end).

(** The calls on the bot among the observations, as the dispatch loop records
    them. *)
Fixpoint on_bot {MessageHandler : Type} (t : list (@Obs MessageHandler))
    : list (@Action MessageHandler) :=
  match t with
  | [] => []
  | OnBot a :: rest => a :: on_bot rest
  | _ :: rest => on_bot rest
  end.

Section Handlers.

Context {MessageHandler : Type}.

Variable transmit : id.RoomID -> event.EventType -> event.MessageEventContent -> option error.
Variable transmit_text : id.RoomID -> string -> option error.

(** [matrix.MarkdownToHTML] hands its argument to the gomarkdown parser and
    renderer; what they make of it is a parameter. *)
Variable MarkdownToHTML : string -> string.

(** The handler of the README's echo bot:
    [bot.SendText(ctx, roomID, "Echo: "+msg.Body)]. *)
Definition readme_echo (b : @Bot MessageHandler) (roomID : id.RoomID) (sender : id.UserID)
    (msg : event.MessageEventContent) : @Eff MessageHandler unit :=
  bind (SendText transmit_text b roomID (String.append "Echo: " (event.Body msg)))
       (fun _ => ret tt).

(** The handler of [examples/echobot]. *)
Definition echobot_handler (b : @Bot MessageHandler) (roomID : id.RoomID)
    (sender : id.UserID) (msg : event.MessageEventContent)
    : list (@Obs MessageHandler) * Outcome unit :=
  let line :=
    Stdout (String.concat "" ["["; roomID; "] "; sender; ": "; event.Body msg; LF]) in
  if negb (strings.HasPrefix (event.Body msg) "!echo ")
  then ([line], Returns tt)
  else
    let reply := strings.TrimPrefix (event.Body msg) "!echo " in
    let html := MarkdownToHTML reply in
    let sent := SendReply transmit b roomID reply html [sender] in
    match snd sent with
    | Returns (Some err) =>
        (line :: map OnBot (fst sent)
           ++ [Stderr (String.concat "" ["Failed to send reply: "; Error err; LF])],
         Returns tt)
    | Returns None => (line :: map OnBot (fst sent), Returns tt)
    | Panics reason => (line :: map OnBot (fst sent), Panics reason)
    end.

(** *** examples/project-manager *)

(** The [services] of the project manager, without the bot they point to: the
    optional clients are nil ([false]) or connected. *)
Record services := {
  ai : bool;
  git : bool;
  oo : bool;
  giteaOwner : string
}.

(** A Gitea repository and a Gitea issue, as far as the handlers read them. *)
Record Repository := {
  Name : string;
  Description : string
}.

Record Issue := {
  Index : Z;
  State : string;
  Title : string
}.

(** What Gitea answers, and how [fmt] prints an integer under [%d]. *)
Variable GetAllRepos : string -> list Repository + error.
Variable GetAllIssues : string -> string -> list Issue + error.
Variable fmt_d : Z -> string.

Definition statusLine (s : services) : string :=
  let parts := [] in
  let parts := if git s then parts ++ ["Gitea"] else parts in
  let parts := if oo s then parts ++ ["OnlyOffice"] else parts in
  let parts := if ai s then parts ++ ["Ollama AI"] else parts in
  if (length parts =? 0)%nat then "_none connected_" else strings.Join parts ", ".

(** One repository line of [cmdRepos]: a description of more than sixty bytes
    is cut to sixty and marked. *)
Definition repo_line (r : Repository) : string :=
  let desc := Description r in
  let desc :=
    if (60 <? String.length desc)%nat
    then String.append (substring 0 60 desc) "..."
    else desc in
  String.concat "" ["- **"; Name r; "** — "; desc; LF].

Definition cmdRepos (s : services) (b : @Bot MessageHandler) (roomID : id.RoomID)
    (sender : id.UserID) : list (@Obs MessageHandler) * Outcome unit :=
  if negb (git s)
  then dropped (SendText transmit_text b roomID "Gitea is not configured.")
  else
    match GetAllRepos (giteaOwner s) with
    | inr err =>
        let sent := dropped (SendText transmit_text b roomID
                               (String.append "Error: " (Error err))) in
        (GetAllRepos_ (giteaOwner s) :: fst sent, snd sent)
    | inl repos =>
        let md :=
          String.append
            (String.concat "" ["**Repositories** ("; fmt_d (Z.of_nat (length repos)); "):"; LF; LF])
            (String.concat "" (map repo_line repos)) in
        let sent := dropped (SendReply transmit b roomID md (MarkdownToHTML md) [sender]) in
        (GetAllRepos_ (giteaOwner s) :: fst sent, snd sent)
    end.

Definition issue_line (iss : Issue) : string :=
  let state := if String.eqb (State iss) "closed" then "closed" else "open" in
  String.concat "" ["- #"; fmt_d (Index iss); " ["; state; "] **"; Title iss; "**"; LF].

(** The loop of [cmdIssues] from index [i] on: at index 25 it writes how many
    issues are left out and breaks. *)
Fixpoint issues_from (total i : nat) (issues : list Issue) : string :=
  match issues with
  | [] => ""
  | iss :: rest =>
      if (25 <=? i)%nat
      then String.concat "" [LF; "_...and "; fmt_d (Z.of_nat total - 25); " more_"; LF]
      else String.append (issue_line iss) (issues_from total (S i) rest)
  end.

Definition cmdIssues (s : services) (b : @Bot MessageHandler) (roomID : id.RoomID)
    (sender : id.UserID) (repo : string) : list (@Obs MessageHandler) * Outcome unit :=
  if negb (git s)
  then dropped (SendText transmit_text b roomID "Gitea is not configured.")
  else if is_empty repo
  then dropped (SendText transmit_text b roomID "Usage: `!issues <repo-name>`")
  else
    match GetAllIssues (giteaOwner s) repo with
    | inr err =>
        let sent := dropped (SendText transmit_text b roomID
                               (String.append "Error: " (Error err))) in
        (GetAllIssues_ (giteaOwner s) repo :: fst sent, snd sent)
    | inl issues =>
        let md :=
          String.append
            (String.concat ""
               ["**Issues for "; repo; "** ("; fmt_d (Z.of_nat (length issues)); "):"; LF; LF])
            (issues_from (length issues) 0 issues) in
        let sent := dropped (SendReply transmit b roomID md (MarkdownToHTML md) [sender]) in
        (GetAllIssues_ (giteaOwner s) repo :: fst sent, snd sent)
    end.

(** *** examples/ai-assistant *)

(** [strings.TrimSpace], which knows Unicode, is a parameter.  So is what
    Ollama does with a query: the responses it hands to [OnJson], in order,
    and the error [Query] returns. *)
Variable TrimSpace : string -> string.
Variable Query : string -> string -> list (option string) * option error.

Definition commandPrefix : string := "::".
Definition model : string := "llama3.2:3b".

(** The [OnJson] callback: a response that carries text is appended. *)
Definition OnJson (chunks : list string) (res : option string) : list string :=
  match res with
  | Some text => chunks ++ [text]
  | None => chunks
  end.

Definition ai_assistant_handler (b : @Bot MessageHandler) (roomID : id.RoomID)
    (sender : id.UserID) (msg : event.MessageEventContent)
    : list (@Obs MessageHandler) * Outcome unit :=
  let body := event.Body msg in
  if (String.length body <=? String.length commandPrefix)%nat
     || negb (String.eqb (substring 0 (String.length commandPrefix) body) commandPrefix)
  then ([], Returns tt)
  else
    let prompt :=
      TrimSpace (substring (String.length commandPrefix)
                           (String.length body - String.length commandPrefix) body) in
    if is_empty prompt
    then ([], Returns tt)
    else
      let line :=
        Stdout (String.concat "" ["["; roomID; "] "; sender; " asked: "; prompt; LF]) in
      let asked := Query_ model prompt "0.7" in
      let chunks := fold_left OnJson (fst (Query model prompt)) [] in
      match snd (Query model prompt) with
      | Some queryErr =>
          let sent :=
            dropped (SendText transmit_text b roomID
                       "Sorry, I encountered an error generating a response.") in
          (line :: asked
             :: Stderr (String.concat "" ["Ollama error: "; Error queryErr; LF])
             :: fst sent,
           snd sent)
      | None =>
          let response := strings.Join chunks "" in
          let html := MarkdownToHTML response in
          let sent := SendReply transmit b roomID response html [sender] in
          match snd sent with
          | Returns (Some sendErr) =>
              (line :: asked :: map OnBot (fst sent)
                 ++ [Stderr (String.concat "" ["Failed to send reply: "; Error sendErr; LF])],
               Returns tt)
          | Returns None => (line :: asked :: map OnBot (fst sent), Returns tt)
          | Panics reason => (line :: asked :: map OnBot (fst sent), Panics reason)
          end
      end.

(** The texts among the responses, in order. *)
Definition texts (responses : list (option string)) : list string :=
  flat_map (fun res => match res with Some text => [text] | None => [] end) responses.

End Handlers.

(** *** examples/commandbot: the command dispatcher *)

Module commandbot.

Section Dispatcher.

Context {MessageHandler : Type}.

(** A command handler is a closure; [run] is what it does when called with the
    bot, the room, the sender and the arguments. *)
Variable Handler_ : Type.
Variable run : Handler_ -> @Bot MessageHandler -> id.RoomID -> id.UserID -> string ->
               list (@Obs MessageHandler) * Outcome unit.

Record command := {
  Name : string;
  Description : string;
  Usage : string;
  Handler : Handler_
}.

Variable transmit_text : id.RoomID -> string -> option error.
Variable TrimSpace : string -> string.
Variable ToLower : string -> string.

(** [strings.SplitN(body, " ", 2)]: the part before the first space, and the
    part after it when there is a space. *)
Fixpoint SplitN2 (body : string) : string * option string :=
  match body with
  | EmptyString => ("", None)
  | String c rest =>
      if Ascii.eqb c " "%char
      then ("", Some rest)
      else (String c (fst (SplitN2 rest)), snd (SplitN2 rest))
  end.

(** The loop over the commands: the first command of that name runs and the
    handler returns; when none has it, the bot says so. *)
Fixpoint find (commands : list command) (cmdName args : string)
    (b : @Bot MessageHandler) (roomID : id.RoomID) (sender : id.UserID)
    : list (@Obs MessageHandler) * Outcome unit :=
  match commands with
  | [] =>
      dropped (SendText transmit_text b roomID
                 (String.concat ""
                    ["Unknown command: "; cmdName;
                     ". Type !help for available commands."]))
  | cmd :: rest =>
      if String.eqb (Name cmd) cmdName
      then run (Handler cmd) b roomID sender args
      else find rest cmdName args b roomID sender
  end.

(** The message handler [main] registers. *)
Definition on_command (commands : list command) (b : @Bot MessageHandler)
    (roomID : id.RoomID) (sender : id.UserID) (msg : event.MessageEventContent)
    : list (@Obs MessageHandler) * Outcome unit :=
  let body := TrimSpace (event.Body msg) in
  if negb (strings.HasPrefix body "!")
  then ([], Returns tt)
  else
    let parts := SplitN2 body in
    let cmdName := ToLower (fst parts) in
    let args :=
      match snd parts with
      | Some rest => TrimSpace rest
      | None => ""
      end in
    let line := Stdout (String.concat "" ["["; roomID; "] "; sender; ": "; body; LF]) in
    let found := find commands cmdName args b roomID sender in
    (line :: fst found, snd found).

End Dispatcher.

Arguments Build_command {Handler_}.
Arguments Name {Handler_}.
Arguments Description {Handler_}.
Arguments Usage {Handler_}.
Arguments Handler {Handler_}.
Arguments find {MessageHandler Handler_}.
Arguments on_command {MessageHandler Handler_}.

End commandbot.


(** ** Dispatch of message events *)

Section Dispatch.

Context {MessageHandler : Type}.
Variable call : MessageHandler -> id.RoomID -> id.UserID ->
                event.MessageEventContent -> Eff (MessageHandler := MessageHandler) unit.

Lemma handlers_register (hs : list MessageHandler) (b : Bot) :
  handlers (register hs b) = handlers b ++ hs.
Proof.
  revert b. induction hs as [|h hs IH]; intros b; simpl.
  - now rewrite app_nil_r.
  - rewrite IH. simpl. now rewrite <- app_assoc.
Qed.

Lemma handlers_NewBot (cfg : Config) (b : Bot (MessageHandler := MessageHandler)) :
  NewBot cfg = inl b -> handlers b = [].
Proof.
  unfold NewBot. destruct (Validate cfg); intros E; inversion E. reflexivity.
Qed.

(** When every handler returns, the loop calls each of them once, in order. *)
Lemma range_handlers_all_return (hs : list MessageHandler) roomID sender msg :
  (forall h, In h hs -> outcome (call h roomID sender msg) = Returns tt) ->
  range_handlers call hs roomID sender msg
  = (invocations call hs roomID sender msg, Returns tt).
Proof.
  induction hs as [|h hs IH]; intros Hret; simpl.
  - reflexivity.
  - unfold bind, invoke. simpl.
    rewrite (Hret h (or_introl eq_refl)).
    rewrite IH by (intros g Hg; apply Hret; now right).
    reflexivity.
Qed.

(** The loop ends at the first handler that panics. *)
Lemma range_handlers_first_panic (before after : list MessageHandler) h reason
    roomID sender msg :
  (forall g, In g before -> outcome (call g roomID sender msg) = Returns tt) ->
  outcome (call h roomID sender msg) = Panics reason ->
  range_handlers call (before ++ h :: after) roomID sender msg
  = (invocations call (before ++ [h]) roomID sender msg, Panics reason).
Proof.
  induction before as [|g before IH]; intros Hret Hpanic; simpl.
  - unfold bind, invoke. simpl. now rewrite Hpanic.
  - unfold bind, invoke. simpl.
    rewrite (Hret g (or_introl eq_refl)).
    rewrite IH; auto.
    intros g' Hg'. apply Hret. now right.
Qed.

(** On a client carrying both routes, a message event reaches the handler
    loop and a membership event the auto-join check. *)
Lemma notify_message (join : id.RoomID -> option error) (b : Bot) (evt : event.Event) :
  event.Type_ evt = event.EventMessage ->
  notify call join b both_routes evt = on_message call b evt.
Proof.
  intros Hty. unfold both_routes. simpl. rewrite Hty. simpl.
  unfold bind. destruct (on_message call b evt) as [t [[]|reason]]; simpl.
  - now rewrite app_nil_r.
  - reflexivity.
Qed.

Lemma notify_member (join : id.RoomID -> option error) (b : Bot) (evt : event.Event) :
  event.Type_ evt = event.StateMember ->
  notify call join b both_routes evt = on_member join b evt.
Proof.
  intros Hty. unfold both_routes. simpl. rewrite Hty. simpl.
  unfold bind at 1 2. simpl.
  destruct (on_member join b evt) as [t [[]|reason]]; simpl.
  - now rewrite app_nil_r.
  - reflexivity.
Qed.

End Dispatch.

Lemma invoked_invocations {MessageHandler : Type}
    (call : MessageHandler -> id.RoomID -> id.UserID -> event.MessageEventContent -> Eff unit)
    (hs : list MessageHandler) roomID sender msg :
  invoked (invocations call hs roomID sender msg) = hs.
Proof.
  induction hs as [|h hs IH]; simpl; [reflexivity | now rewrite IH].
Qed.

(** C1 (amended): for every sequence [hs] of handlers registered with
    [OnMessage] on a new bot and every inbound message event, provided every
    handler returns, the dispatch makes exactly [length hs] handler calls and
    nothing else, in the order of registration, each with the room, the
    sender and the message content of the event. *)
Theorem on_message_invokes_all :
  forall (MessageHandler : Type)
         (call : MessageHandler -> id.RoomID -> id.UserID ->
                 event.MessageEventContent -> Eff unit)
         (cfg : Config) (b0 : Bot) (hs : list MessageHandler) (evt : event.Event),
    NewBot cfg = inl b0 ->
    (forall h, In h hs ->
       outcome (call h (event.RoomID evt) (event.Sender evt)
                       (event.AsMessage (event.Content_ evt))) = Returns tt) ->
    on_message call (register hs b0) evt
    = (invocations call hs (event.RoomID evt) (event.Sender evt)
                   (event.AsMessage (event.Content_ evt)), Returns tt)
    /\ length (calls (on_message call (register hs b0) evt)) = length hs
    /\ invoked (calls (on_message call (register hs b0) evt)) = hs.
Proof.
  intros MessageHandler call cfg b0 hs evt Hnew Hret.
  assert (E : on_message call (register hs b0) evt
              = (invocations call hs (event.RoomID evt) (event.Sender evt)
                             (event.AsMessage (event.Content_ evt)), Returns tt)).
  { unfold on_message. rewrite handlers_register, (handlers_NewBot cfg b0 Hnew).
    simpl. now apply range_handlers_all_return. }
  rewrite E. unfold calls, invocations. simpl.
  repeat split.
  - apply length_map.
  - apply (invoked_invocations call).
Qed.

Lemma on_message_invokes_all_witness :
  NewBot sample_config = inl sample_bot
  /\ invoked (calls (on_message sample_call (register [echo; audit] sample_bot)
                                sample_message)) = [echo; audit].
Proof.
  split; [reflexivity|].
  apply (on_message_invokes_all Sample sample_call sample_config sample_bot
                                [echo; audit] sample_message).
  - reflexivity.
  - intros h [<-|[<-|[]]]; reflexivity.
Defined.

(** C1, as stated, fails: with three registered handlers of which the second
    panics, the dispatch calls two handlers, not three. *)
Lemma on_message_fewer_than_registered :
  NewBot sample_config = inl sample_bot
  /\ handlers (register [echo; faulty; audit] sample_bot) = [echo; faulty; audit]
  /\ invoked (calls (on_message sample_call (register [echo; faulty; audit] sample_bot)
                                sample_message)) = [echo; faulty]
  /\ length (calls (on_message sample_call (register [echo; faulty; audit] sample_bot)
                               sample_message))
     <> length (handlers (register [echo; faulty; audit] sample_bot)).
Proof.
  repeat split; try reflexivity. vm_compute. discriminate.
Qed.

(** C2 (amended): when a handler panics during dispatch, the handlers
    registered before it have been called in order, the panicking handler is
    the last one called, no handler registered after it is called for that
    event, and the panic leaves the dispatch closure: the bot does not
    isolate handler calls. *)
Theorem on_message_stops_at_panic :
  forall (MessageHandler : Type)
         (call : MessageHandler -> id.RoomID -> id.UserID ->
                 event.MessageEventContent -> Eff unit)
         (cfg : Config) (b0 : Bot) (before after : list MessageHandler)
         (h : MessageHandler) (reason : string) (evt : event.Event),
    NewBot cfg = inl b0 ->
    (forall g, In g before ->
       outcome (call g (event.RoomID evt) (event.Sender evt)
                       (event.AsMessage (event.Content_ evt))) = Returns tt) ->
    outcome (call h (event.RoomID evt) (event.Sender evt)
                    (event.AsMessage (event.Content_ evt))) = Panics reason ->
    on_message call (register (before ++ h :: after) b0) evt
    = (invocations call (before ++ [h]) (event.RoomID evt) (event.Sender evt)
                   (event.AsMessage (event.Content_ evt)), Panics reason)
    /\ invoked (calls (on_message call (register (before ++ h :: after) b0) evt))
       = before ++ [h].
Proof.
  intros MessageHandler call cfg b0 before after h reason evt Hnew Hret Hpanic.
  assert (E : on_message call (register (before ++ h :: after) b0) evt
              = (invocations call (before ++ [h]) (event.RoomID evt) (event.Sender evt)
                             (event.AsMessage (event.Content_ evt)), Panics reason)).
  { unfold on_message. rewrite handlers_register, (handlers_NewBot cfg b0 Hnew).
    simpl. now apply range_handlers_first_panic. }
  split; [exact E|].
  rewrite E. apply (invoked_invocations call).
Qed.

Lemma on_message_stops_at_panic_witness :
  invoked (calls (on_message sample_call (register ([echo] ++ faulty :: [audit; echo]) sample_bot)
                             sample_message)) = [echo] ++ [faulty].
Proof.
  apply (on_message_stops_at_panic Sample sample_call sample_config sample_bot
           [echo] [audit; echo] faulty "handler failed" sample_message).
  - reflexivity.
  - intros g [<-|[]]. reflexivity.
  - reflexivity.
Defined.

(** C2, as stated, fails: the handler registered after a panicking one is
    not called, and the dispatch itself ends in the panic. *)
Lemma on_message_no_isolation :
  ~ In audit (invoked (calls (on_message sample_call
                                (register [echo; faulty; audit] sample_bot) sample_message)))
  /\ outcome (on_message sample_call (register [echo; faulty; audit] sample_bot)
                         sample_message) = Panics "handler failed".
Proof.
  split; [|reflexivity].
  vm_compute. intros [H|[H|[]]]; discriminate.
Qed.

(** ** Auto-join on invite *)

(** C3: with the client in place, the membership route makes exactly one
    join call, for the room of the event, when the state key of the event is
    the bot's own user id and the membership is "invite", and no join call
    for any other membership event.  A failed join is followed by one error
    log entry carrying the room id and the inviter, and by nothing else: no
    second join call, and the route returns normally. *)
Theorem on_member_joins_iff_invited :
  forall (MessageHandler : Type) (join : id.RoomID -> option error)
         (b : Bot (MessageHandler := MessageHandler)) (c : mautrix.Client)
         (evt : event.Event),
    client b = Some c ->
    outcome (on_member join b evt) = Returns tt
    /\ (joins (calls (on_member join b evt)) = [event.RoomID evt]
        <-> event.GetStateKey evt = mautrix.UserID c
            /\ event.Membership (event.AsMember (event.Content_ evt))
               = event.MembershipInvite)
    /\ (~ (event.GetStateKey evt = mautrix.UserID c
           /\ event.Membership (event.AsMember (event.Content_ evt))
              = event.MembershipInvite)
        -> calls (on_member join b evt) = [])
    /\ (forall err,
          joins (calls (on_member join b evt)) = [event.RoomID evt] ->
          join (event.RoomID evt) = Some err ->
          calls (on_member join b evt)
          = [JoinRoomByID_ (event.RoomID evt);
             Log_ {| log_level := ErrorLevel;
                     log_err := Some err;
                     log_fields := [("room_id", event.RoomID evt);
                                    ("inviter", event.Sender evt)];
                     log_msg := "Failed to join room after invite" |}]).
Proof.
  intros MessageHandler join b c evt Hc.
  unfold on_member, the_client. rewrite Hc.
  unfold bind, ret, calls, outcome. simpl.
  destruct (String.eqb_spec (event.GetStateKey evt) (mautrix.UserID c)) as [Hk|Hk];
    destruct (String.eqb_spec (event.Membership (event.AsMember (event.Content_ evt)))
                              event.MembershipInvite) as [Hm|Hm];
    simpl.
  - destruct (join (event.RoomID evt)) as [e|] eqn:Hj; simpl;
      (repeat split; auto; try tauto; intros err _ He; inversion He; reflexivity).
  - repeat split; auto; try tauto; try discriminate.
  - repeat split; auto; try tauto; try discriminate.
  - repeat split; auto; try tauto; try discriminate.
Qed.

Lemma on_member_joins_iff_invited_witness :
  client sample_running = Some sample_client
  /\ calls (on_member join_forbidden sample_running
                      (sample_member "@bot:example" "invite"))
     = [JoinRoomByID_ "!R1:example";
        Log_ {| log_level := ErrorLevel;
                log_err := Some (ErrorString "M_FORBIDDEN");
                log_fields := [("room_id", "!R1:example"); ("inviter", "@alice:example")];
                log_msg := "Failed to join room after invite" |}].
Proof.
  split; [reflexivity|].
  apply (proj2 (proj2 (proj2
           (on_member_joins_iff_invited Sample join_forbidden sample_running
              sample_client (sample_member "@bot:example" "invite") eq_refl))));
    reflexivity.
Defined.

(** ** Send operations *)

(** C5 (amended): with the client in place, every [SendHTML] transmits one
    message event that carries the caller's plain-text body unchanged next to
    the HTML body, also when the HTML body is empty; the plain-text body is
    empty exactly when the caller's text is. *)
Theorem SendHTML_carries_both_bodies :
  forall (MessageHandler : Type)
         (transmit : id.RoomID -> event.EventType -> event.MessageEventContent -> option error)
         (b : Bot (MessageHandler := MessageHandler)) (c : mautrix.Client)
         (roomID : id.RoomID) (text html : string),
    client b = Some c ->
    exists content,
      SendHTML transmit b roomID text html
      = ([SendMessageEvent_ roomID event.EventMessage content],
         Returns (transmit roomID event.EventMessage content))
      /\ event.MsgType content = event.MsgText
      /\ event.Body content = text
      /\ event.Format_ content = event.FormatHTML
      /\ event.FormattedBody content = html
      /\ (event.Body content = "" <-> text = "").
Proof.
  intros MessageHandler transmit b c roomID text html Hc.
  exists (html_content text html).
  unfold SendHTML, the_client. rewrite Hc.
  unfold bind, ret, SendMessageEvent. simpl.
  repeat split; auto.
Qed.

Lemma SendHTML_carries_both_bodies_witness :
  client sample_running = Some sample_client
  /\ exists content,
       SendHTML never_fails sample_running "!R1:example" "hi" ""
       = ([SendMessageEvent_ "!R1:example" event.EventMessage content],
          Returns (never_fails "!R1:example" event.EventMessage content))
       /\ event.MsgType content = event.MsgText
       /\ event.Body content = "hi"
       /\ event.Format_ content = event.FormatHTML
       /\ event.FormattedBody content = ""
       /\ (event.Body content = "" <-> "hi" = "").
Proof.
  split; [reflexivity|].
  apply (SendHTML_carries_both_bodies Sample never_fails sample_running sample_client
           "!R1:example" "hi" "").
  reflexivity.
Defined.

(** C5, as stated, fails: called with an empty text, [SendHTML] transmits an
    event whose plain-text body is empty. *)
Lemma SendHTML_empty_fallback :
  ~ (forall content,
       In (SendMessageEvent_ "!R1:example" event.EventMessage content)
          (calls (SendHTML never_fails sample_running "!R1:example" "" "<b>hi</b>")) ->
       event.Body content <> "").
Proof.
  intros H.
  apply (H (html_content "" "<b>hi</b>")); [left|]; reflexivity.
Qed.

(** C6: with the client in place, [SendReply] given a non-empty list of
    user ids transmits one message event whose mentions are set, with the
    given ids in order and the room-wide flag true. *)
Theorem SendReply_sets_mentions :
  forall (MessageHandler : Type)
         (transmit : id.RoomID -> event.EventType -> event.MessageEventContent -> option error)
         (b : Bot (MessageHandler := MessageHandler)) (c : mautrix.Client)
         (roomID : id.RoomID) (text html : string) (mentionUserIDs : list id.UserID),
    client b = Some c ->
    mentionUserIDs <> [] ->
    exists content,
      SendReply transmit b roomID text html mentionUserIDs
      = ([SendMessageEvent_ roomID event.EventMessage content],
         Returns (transmit roomID event.EventMessage content))
      /\ event.Mentions_ content
         = Some {| event.UserIDs := mentionUserIDs; event.Room := true |}
      /\ event.MsgType content = event.MsgText
      /\ event.Body content = text
      /\ event.Format_ content = event.FormatHTML
      /\ event.FormattedBody content = html.
Proof.
  intros MessageHandler transmit b c roomID text html ids Hc Hne.
  destruct ids as [|u us]; [congruence|].
  exists (set_Mentions {| event.UserIDs := u :: us; event.Room := true |}
                       (html_content text html)).
  unfold SendReply, the_client. rewrite Hc.
  unfold bind, ret, SendMessageEvent. simpl.
  repeat split; auto.
Qed.

Lemma SendReply_sets_mentions_witness :
  exists content,
    SendReply never_fails sample_running "!R1:example" "hi" "<p>hi</p>"
              ["@alice:example"; "@carol:example"]
    = ([SendMessageEvent_ "!R1:example" event.EventMessage content],
       Returns (never_fails "!R1:example" event.EventMessage content))
    /\ event.Mentions_ content
       = Some {| event.UserIDs := ["@alice:example"; "@carol:example"];
                 event.Room := true |}
    /\ event.MsgType content = event.MsgText
    /\ event.Body content = "hi"
    /\ event.Format_ content = event.FormatHTML
    /\ event.FormattedBody content = "<p>hi</p>".
Proof.
  apply (SendReply_sets_mentions Sample never_fails sample_running sample_client
           "!R1:example" "hi" "<p>hi</p>" ["@alice:example"; "@carol:example"]).
  - reflexivity.
  - discriminate.
Defined.

(** C10: for every bot, room, text and HTML body, [SendReply] with no
    mentioned user is [SendHTML]: the same call with the same content (text
    message type, HTML format, both bodies, mentions unset), the same result,
    and the same panic on a bot without client. *)
Theorem SendReply_nil_is_SendHTML :
  forall (MessageHandler : Type)
         (transmit : id.RoomID -> event.EventType -> event.MessageEventContent -> option error)
         (b : Bot (MessageHandler := MessageHandler))
         (roomID : id.RoomID) (text html : string),
    SendReply transmit b roomID text html [] = SendHTML transmit b roomID text html
    /\ calls (SendReply transmit b roomID text html [])
       = match client b with
         | Some _ =>
             [SendMessageEvent_ roomID event.EventMessage
                {| event.MsgType := event.MsgText;
                   event.Body := text;
                   event.Format_ := event.FormatHTML;
                   event.FormattedBody := html;
                   event.Mentions_ := None |}]
         | None => []
         end.
Proof.
  intros MessageHandler transmit b roomID text html.
  split; [reflexivity|].
  unfold SendReply, the_client. simpl.
  destruct (client b); reflexivity.
Qed.

(** ** Bootstrap *)

Section Lifecycle.

Context {MessageHandler : Type}.

Lemma fresh_NewBot (cfg : Config) (b : @Bot MessageHandler) : NewBot cfg = inl b -> fresh b.
Proof.
  unfold NewBot. destruct (Validate cfg); intros E; inversion E.
  repeat split.
Qed.

Lemma fresh_register (hs : list MessageHandler) (b : @Bot MessageHandler) :
  fresh b -> fresh (register hs b).
Proof.
  revert b. induction hs as [|h hs IH]; intros b Hb; simpl; [exact Hb|].
  apply IH. destruct Hb as (H1 & H2 & H3 & H4). repeat split; assumption.
Qed.



(** A property kept by every step holds after every run. *)
Lemma exec_invariant (P : @Sys MessageHandler -> Prop) :
  (forall s e s', P s -> step s e = Some s' -> P s') ->
  forall es s s', P s -> exec s es = Some s' -> P s'.
Proof.
  intros Hstep es. induction es as [|e es IH]; intros s s' Hs Hex; simpl in Hex.
  - inversion Hex. now subst.
  - destruct (step s e) as [s1|] eqn:E; [|discriminate].
    apply (IH s1); [apply (Hstep s e)|]; assumption.
Qed.

(** What a failed bootstrap leaves: the error names one of the three phases;
    the crypto helper, the cancel function and the wait group are untouched;
    the bot is unchanged when the client could not be built, and otherwise
    keeps the client with both routes. *)
Lemma bootstrap_failed (w : Boot) (b b' : @Bot MessageHandler) t err :
  bootstrap w b = (b', t, Some err) ->
  crypto b' = crypto b /\ cancelSync b' = cancelSync b /\ syncWait b' = syncWait b
  /\ exists phase cause,
       err = Wrapf phase cause /\ In phase phases
       /\ (phase = "matrix: failed to create client" -> b' = b)
       /\ (phase <> "matrix: failed to create client" ->
           exists c, client b' = Some c /\ mautrix.listeners c = both_routes
                     /\ mautrix.Crypto c = false).
Proof.
  unfold bootstrap.
  destruct (NewClient_err w) as [e1|].
  - intros E; inversion E; subst. repeat split.
    exists "matrix: failed to create client", e1.
    repeat split; [now left | tauto].
  - destruct (NewCryptoHelper_err w) as [e2|].
    + intros E; inversion E; subst. repeat split.
      exists "matrix: failed to create crypto helper", e2.
      repeat split; [right; now left | discriminate |].
      intros _. eexists. repeat split.
    + destruct (Init_res w) as [u|e3]; intros E; inversion E; subst. repeat split.
      exists "matrix: failed to init crypto", e3.
      repeat split; [right; right; now left | discriminate |].
      intros _. destruct (Init_login w); eexists; repeat split.
Qed.

(** What a bootstrap that went through leaves. *)
Lemma bootstrap_succeeded (w : Boot) (b b' : @Bot MessageHandler) t :
  bootstrap w b = (b', t, None) ->
  ready b' /\ cancelSync b' = true /\ syncWait b' = S (syncWait b)
  /\ NewClient_err w = None /\ NewCryptoHelper_err w = None
  /\ exists user, Init_res w = inl user.
Proof.
  unfold bootstrap.
  destruct (NewClient_err w) as [e1|]; [discriminate|].
  destruct (NewCryptoHelper_err w) as [e2|]; [discriminate|].
  destruct (Init_res w) as [u|e3]; [|discriminate].
  intros E; inversion E; subst.
  repeat split; [|now exists u].
  unfold ready. do 2 eexists. repeat split.
Qed.

Lemma unstarted_step (s : @Sys MessageHandler) e s' :
  unstarted s -> step s e = Some s' -> unstarted s'.
Proof.
  unfold unstarted. intros HP Hstep.
  destruct e; simpl in Hstep.
  - destruct (run s); try discriminate.
    destruct (bootstrap w (bot s)) as [[b' t] r] eqn:E.
    destruct r as [err|]; inversion Hstep; subst; simpl; [|discriminate].
    intros Ht. destruct (HP Ht) as (H1 & H2 & H3).
    destruct (bootstrap_failed _ _ _ _ _ E) as (F1 & F2 & F3 & _).
    rewrite F1, F2, F3. auto.
  - inversion Hstep; subst; simpl. exact HP.
  - destruct (task s); try discriminate. inversion Hstep; subst; simpl. discriminate.
  - destruct (run s); try discriminate.
    destruct (syncCtxDone s); try discriminate.
    inversion Hstep; subst; simpl. exact HP.
  - destruct (stop s); try discriminate;
      destruct (cancelSync (bot s)) eqn:Ec; inversion Hstep; subst; simpl;
      rewrite ?Ec; exact HP.
  - destruct (stop s); try discriminate.
    destruct (syncWait (bot s) =? 0)%nat eqn:Ew; try discriminate.
    destruct (crypto (bot s)) eqn:Ec; inversion Hstep; subst; simpl;
      rewrite ?Ec; exact HP.
Qed.

Lemma returned_after_done_step (s : @Sys MessageHandler) e s' :
  returned_after_done s -> step s e = Some s' -> returned_after_done s'.
Proof.
  unfold returned_after_done, syncCtxDone. intros HP Hstep.
  destruct e; simpl in Hstep.
  - destruct (run s); try discriminate.
    destruct (bootstrap w (bot s)) as [[b' t] r].
    destruct r; inversion Hstep; subst; simpl; discriminate.
  - inversion Hstep; subst; simpl. reflexivity.
  - destruct (task s); try discriminate. inversion Hstep; subst; simpl. exact HP.
  - destruct (run s); try discriminate.
    unfold syncCtxDone in Hstep.
    destruct (ctxDone s || cancelled s) eqn:Ed; try discriminate.
    inversion Hstep; subst; simpl. intros _. exact Ed.
  - destruct (stop s); try discriminate;
      destruct (cancelSync (bot s)); inversion Hstep; subst; simpl;
      rewrite ?orb_true_r; auto.
  - destruct (stop s); try discriminate.
    destruct (syncWait (bot s) =? 0)%nat; try discriminate.
    destruct (crypto (bot s)); inversion Hstep; subst; simpl; exact HP.
Qed.



End Lifecycle.

(** C4 (amended): for every valid configuration, [Run] on the new bot does
    one of four things, decided by where the bootstrap first fails.  When the
    client cannot be built, [Run] returns that error wrapped as "failed to
    create client" and the bot is unchanged.  When the crypto helper cannot be
    created, or when its [Init] (which makes the login) fails, [Run] returns
    that error wrapped as "failed to create crypto helper" or "failed to init
    crypto"; the session is not ready, the crypto helper, the cancel function
    and the wait group are untouched and the sync is never started, but the
    bot keeps the client it built, with both routes installed.  Only when
    every step succeeds is the session ready (client with both routes, logged
    in as the identity [Init] gave, crypto helper initialised and kept) and
    the sync goroutine started, with [Run] waiting. *)
Theorem Run_bootstrap_outcomes :
  forall (MessageHandler : Type) (cfg : Config) (b0 : @Bot MessageHandler)
         (hs : list MessageHandler) (w : Boot),
    NewBot cfg = inl b0 ->
    exists s,
      step (init (register hs b0)) (CallRun w) = Some s
      /\ match NewClient_err w, NewCryptoHelper_err w, Init_res w with
         | Some cause, _, _ =>
             run s = Returned (Some (Wrapf "matrix: failed to create client" cause))
             /\ bot s = register hs b0
             /\ task s = Absent /\ syncs (trace s) = 0
         | None, Some cause, _ =>
             run s = Returned (Some (Wrapf "matrix: failed to create crypto helper" cause))
             /\ task s = Absent /\ syncs (trace s) = 0
             /\ ~ ready (bot s)
             /\ crypto (bot s) = None /\ cancelSync (bot s) = false
             /\ syncWait (bot s) = 0
             /\ exists c, client (bot s) = Some c
                          /\ mautrix.listeners c = both_routes
                          /\ mautrix.Crypto c = false
         | None, None, inr cause =>
             run s = Returned (Some (Wrapf "matrix: failed to init crypto" cause))
             /\ task s = Absent /\ syncs (trace s) = 0
             /\ ~ ready (bot s)
             /\ crypto (bot s) = None /\ cancelSync (bot s) = false
             /\ syncWait (bot s) = 0
             /\ exists c, client (bot s) = Some c
                          /\ mautrix.listeners c = both_routes
                          /\ mautrix.Crypto c = false
         | None, None, inl user =>
             run s = Waiting /\ task s = Syncing /\ syncs (trace s) = 1
             /\ ready (bot s)
             /\ cancelSync (bot s) = true /\ syncWait (bot s) = 1
             /\ exists c, client (bot s) = Some c /\ mautrix.UserID c = user
         end.
Proof.
  intros MessageHandler cfg b0 hs w Hnew.
  pose proof (fresh_register hs b0 (fresh_NewBot cfg b0 Hnew)) as (_ & Hk & Hc & Hw).
  assert (Hnot : forall b : @Bot MessageHandler, crypto b = None -> ~ ready b).
  { intros b Hb (c & h & _ & Hh & _). congruence. }
  unfold step, init; simpl. unfold bootstrap.
  destruct (NewClient_err w) as [e1|].
  - eexists. split; [reflexivity|]. simpl. repeat split.
  - destruct (NewCryptoHelper_err w) as [e2|].
    + eexists. split; [reflexivity|]. simpl.
      repeat split; auto; try (apply Hnot; exact Hk).
      eexists. repeat split.
    + destruct (Init_res w) as [user|e3].
      * eexists. split; [reflexivity|]. simpl. rewrite Hw.
        repeat split; [do 2 eexists; repeat split|].
        eexists. split; reflexivity.
      * eexists. split; [reflexivity|]. simpl.
        repeat split; auto; try (apply Hnot; exact Hk).
        destruct (Init_login w); eexists; repeat split.
Qed.

Lemma Run_bootstrap_outcomes_witness :
  exists s,
    step (init (register [echo] sample_bot)) (CallRun all_fine) = Some s
    /\ run s = Waiting /\ task s = Syncing /\ syncs (trace s) = 1
    /\ ready (bot s)
    /\ cancelSync (bot s) = true /\ syncWait (bot s) = 1
    /\ exists c, client (bot s) = Some c /\ mautrix.UserID c = "@bot:example".
Proof.
  apply (Run_bootstrap_outcomes Sample sample_config sample_bot [echo] all_fine).
  reflexivity.
Defined.

(** C4, as stated, fails: when the key store cannot be opened, [Run] returns
    the wrapped error, yet the bot is not in its state from before the
    bootstrap: it holds the client with both routes installed. *)
Lemma Run_failure_keeps_client :
  NewBot sample_config = inl sample_bot
  /\ exists s,
       step (init sample_bot) (CallRun no_key_store) = Some s
       /\ run s = Returned (Some (Wrapf "matrix: failed to create crypto helper"
                                        (ErrorString "unable to open database file")))
       /\ bot s <> sample_bot
       /\ client (bot s)
          = Some {| mautrix.HomeserverURL := "https://example";
                    mautrix.UserID := "";
                    mautrix.listeners := both_routes;
                    mautrix.Log := Some false;
                    mautrix.Crypto := false |}.
Proof.
  split; [reflexivity|].
  eexists. split; [lazy; reflexivity|].
  split; [reflexivity|]. split; [|reflexivity].
  intros H. discriminate (f_equal client H).
Qed.

(** ** Run and the derived context *)

(** The derived context is cancelled only by a call of [Stop]. *)
Lemma cancelled_by_Stop {MessageHandler : Type} (es : list Ev) :
  forall (s s' : @Sys MessageHandler),
    exec s es = Some s' -> cancelled s' = true ->
    cancelled s = true \/ In CallStop es.
Proof.
  induction es as [|e es IH]; intros s s' Hex Hc; simpl in Hex.
  - inversion Hex; subst. now left.
  - destruct (step s e) as [s1|] eqn:E; [|discriminate].
    destruct (IH s1 s' Hex Hc) as [H1|Hin]; [|right; now right].
    destruct e; simpl in E; try (right; now left).
    + destruct (run s); try discriminate.
      destruct (bootstrap w (bot s)) as [[b' t] r].
      destruct r; inversion E; subst; simpl in H1; [now left|discriminate].
    + inversion E; subst. now left.
    + destruct (task s); try discriminate. inversion E; subst. now left.
    + destruct (run s); try discriminate.
      destruct (syncCtxDone s); try discriminate. inversion E; subst. now left.
    + destruct (stop s); try discriminate.
      destruct (syncWait (bot s) =? 0)%nat; try discriminate.
      destruct (crypto (bot s)); inversion E; subst; now left.
Qed.

(** C7 (amended): after a successful bootstrap [Run] returns, with nil,
    exactly when the context derived from the caller's context is done, that
    is when the caller's context is done or [Stop] has called the cancel
    function.  Once the caller's context is done the return of [Run] is
    enabled; while neither holds it is not; and the sync goroutine returning,
    with whatever error, leaves [Run] waiting. *)
Theorem Run_returns_when_syncCtx_done :
  forall (MessageHandler : Type) (b : @Bot MessageHandler) (es : list Ev)
         (s : @Sys MessageHandler),
    exec (init b) es = Some s ->
    (run s = Returned None -> ctxDone s = true \/ In CallStop es)
    /\ (run s = Waiting -> ctxDone s = true ->
        exists s', step s RunWakes = Some s' /\ run s' = Returned None)
    /\ (run s = Waiting -> cancelled s = true ->
        exists s', step s RunWakes = Some s' /\ run s' = Returned None)
    /\ (run s = Waiting -> ctxDone s = false -> cancelled s = false ->
        step s RunWakes = None)
    /\ (forall r s', run s = Waiting -> step s (SyncReturns r) = Some s' ->
        run s' = Waiting /\ ctxDone s' = ctxDone s /\ cancelled s' = cancelled s).
Proof.
  intros MessageHandler b es s Hex.
  split; [|split; [|split; [|split]]].
  - intros Hr.
    assert (Hinv : returned_after_done s).
    { apply (exec_invariant returned_after_done returned_after_done_step es (init b));
        [discriminate | exact Hex]. }
    specialize (Hinv Hr). unfold syncCtxDone in Hinv.
    apply orb_true_iff in Hinv. destruct Hinv as [Hd|Hc]; [now left|].
    destruct (cancelled_by_Stop es _ _ Hex Hc) as [H0|Hin]; [discriminate|now right].
  - intros Hr Hd. unfold step, syncCtxDone. rewrite Hr, Hd. simpl.
    eexists; split; reflexivity.
  - intros Hr Hc. unfold step, syncCtxDone. rewrite Hr, Hc, orb_true_r.
    eexists; split; reflexivity.
  - intros Hr Hd Hc. unfold step, syncCtxDone. rewrite Hr, Hd, Hc. reflexivity.
  - intros r s' Hr Hstep. simpl in Hstep.
    destruct (task s); try discriminate.
    inversion Hstep; subst; simpl. auto.
Qed.

Lemma Run_returns_when_syncCtx_done_witness :
  exists s',
    exec (init sample_bot) [CallRun all_fine; SyncReturns (Some (ErrorString "EOF")); CancelCtx]
    = Some s'
    /\ exists s'', step s' RunWakes = Some s'' /\ run s'' = Returned None.
Proof.
  eexists. split; [lazy; reflexivity|].
  refine (proj1 (proj2 (Run_returns_when_syncCtx_done Sample sample_bot
            [CallRun all_fine; SyncReturns (Some (ErrorString "EOF")); CancelCtx]
            _ _)) _ _); reflexivity.
Defined.

(** C7, as stated, fails: [Stop] cancels the derived context, and [Run]
    returns while the caller's context is not done. *)
Lemma Run_returns_on_Stop :
  exists s,
    exec (init sample_bot) [CallRun all_fine; CallStop; RunWakes] = Some s
    /\ run s = Returned None
    /\ ctxDone s = false.
Proof.
  eexists. split; [lazy; reflexivity|]. split; reflexivity.
Qed.

(** ** The sync goroutine *)




(** Only [context.Canceled] counts as cancellation: a sync that ends because
    a deadline of the caller's context passed is logged like any other
    error. *)
Remark deadline_is_logged :
  after_sync (MessageHandler := Sample) (Some DeadlineExceeded)
  = [Log_ (sync_error DeadlineExceeded); Done_].
Proof. reflexivity. Qed.

(** ** Configuration and construction *)

Lemma is_empty_true (s : string) : is_empty s = true <-> s = "".
Proof. destruct s; simpl; split; congruence. Qed.

Lemma is_empty_false (s : string) : is_empty s = false <-> s <> "".
Proof. destruct s; simpl; split; congruence. Qed.

(** X1: [Validate] reports the first missing field in the order homeserver,
    username, password, whatever the later fields hold, and accepts a
    configuration exactly when all three are non-empty; the database path and
    the debug flag play no part. *)
Theorem Validate_first_missing :
  forall (cfg : Config),
    (Homeserver cfg = "" ->
     Validate cfg = Some (ErrorString "matrix: homeserver URL is required"))
    /\ (Homeserver cfg <> "" -> Username cfg = "" ->
        Validate cfg = Some (ErrorString "matrix: username is required"))
    /\ (Homeserver cfg <> "" -> Username cfg <> "" -> Password cfg = "" ->
        Validate cfg = Some (ErrorString "matrix: password is required"))
    /\ (Validate cfg = None <->
        Homeserver cfg <> "" /\ Username cfg <> "" /\ Password cfg <> "").
Proof.
  intros cfg. unfold Validate.
  destruct (is_empty (Homeserver cfg)) eqn:Eh;
    [apply is_empty_true in Eh | apply is_empty_false in Eh];
    (destruct (is_empty (Username cfg)) eqn:Eu;
       [apply is_empty_true in Eu | apply is_empty_false in Eu]);
    (destruct (is_empty (Password cfg)) eqn:Ep;
       [apply is_empty_true in Ep | apply is_empty_false in Ep]);
    repeat split; intros; try tauto; try congruence; try discriminate.
Qed.

(** X2: [NewBot] fails exactly with the error of [Validate], and otherwise
    gives a bot with no client, no crypto helper, no handler, no cancel
    function and a wait group at zero, whose configuration is the one given
    except that an empty database path became "matrix-bot.db": the
    configuration of a bot always validates and always names a database. *)
Theorem NewBot_result :
  forall (MessageHandler : Type) (cfg : Config),
    match NewBot (MessageHandler := MessageHandler) cfg with
    | inl b =>
        Validate cfg = None
        /\ Homeserver (config b) = Homeserver cfg
        /\ Username (config b) = Username cfg
        /\ Password (config b) = Password cfg
        /\ Debug (config b) = Debug cfg
        /\ Database (config b)
           = (if is_empty (Database cfg) then "matrix-bot.db" else Database cfg)
        /\ Database (config b) <> ""
        /\ Validate (config b) = None
        /\ handlers b = [] /\ log b = None /\ fresh b
    | inr err => Validate cfg = Some err
    end.
Proof.
  intros MessageHandler cfg. unfold NewBot.
  destruct (Validate cfg) as [err|] eqn:Ev; [reflexivity|].
  simpl. unfold fresh. simpl.
  destruct (is_empty (Database cfg)) eqn:Ed; simpl;
    repeat split; auto; try discriminate.
  now apply is_empty_false.
Qed.

(** X3: a bot can be built from the environment exactly when
    MATRIX_API_URL, MATRIX_API_USER and MATRIX_API_PASS are all set to
    non-empty values; its database is then "matrix-bot.db", and debug logging
    is on exactly when MATRIX_DEBUG is the string "true". *)
Theorem NewBot_from_environment :
  forall (MessageHandler : Type) (Getenv : string -> string),
    ((exists b : @Bot MessageHandler, NewBot (GetEnvironmentConfig Getenv) = inl b)
     <-> Getenv "MATRIX_API_URL" <> "" /\ Getenv "MATRIX_API_USER" <> ""
         /\ Getenv "MATRIX_API_PASS" <> "")
    /\ (forall b : @Bot MessageHandler,
          NewBot (GetEnvironmentConfig Getenv) = inl b ->
          config b = GetEnvironmentConfig Getenv
          /\ Database (config b) = "matrix-bot.db"
          /\ (Debug (config b) = true <-> Getenv "MATRIX_DEBUG" = "true")).
Proof.
  intros MessageHandler Getenv.
  pose proof (Validate_first_missing (GetEnvironmentConfig Getenv)) as (_ & _ & _ & Hv).
  simpl in Hv. split.
  - split.
    + intros [b Hb]. apply Hv. unfold NewBot in Hb.
      destruct (Validate (GetEnvironmentConfig Getenv)); [discriminate|reflexivity].
    + intros Hset. apply Hv in Hset. unfold NewBot. rewrite Hset. eexists. reflexivity.
  - intros b Hb. unfold NewBot in Hb.
    destruct (Validate (GetEnvironmentConfig Getenv)); [discriminate|].
    simpl in Hb. inversion Hb; subst; simpl.
    repeat split; try apply String.eqb_eq.
Qed.

(** ** Registration and dispatch compose *)

Section Compose.

Context {MessageHandler : Type}.
Variable call : MessageHandler -> id.RoomID -> id.UserID ->
                event.MessageEventContent -> Eff (MessageHandler := MessageHandler) unit.

Lemma bind_assoc {A B C : Type} (m : @Eff MessageHandler A)
    (f : A -> @Eff MessageHandler B) (g : B -> @Eff MessageHandler C) :
  bind (bind m f) g = bind m (fun x => bind (f x) g).
Proof.
  destruct m as [t [a|reason]]; unfold bind; simpl; [|reflexivity].
  destruct (f a) as [t' [b|reason]]; simpl; [|reflexivity].
  now rewrite app_assoc.
Qed.

Lemma range_handlers_app (hs1 hs2 : list MessageHandler) roomID sender msg :
  range_handlers call (hs1 ++ hs2) roomID sender msg
  = bind (range_handlers call hs1 roomID sender msg)
         (fun _ => range_handlers call hs2 roomID sender msg).
Proof.
  induction hs1 as [|h hs1 IH]; simpl.
  - unfold bind, ret. simpl. now destruct (range_handlers call hs2 roomID sender msg).
  - rewrite IH. now rewrite bind_assoc.
Qed.

End Compose.

(** X4: registering more handlers never changes what the handlers already
    registered see: the dispatch of an event on the extended bot is the
    dispatch on the original bot followed, only if that one returned, by the
    calls of the new handlers in order with the same arguments.  The calls of
    the original dispatch are always a prefix of the extended one. *)
Theorem on_message_register_more :
  forall (MessageHandler : Type)
         (call : MessageHandler -> id.RoomID -> id.UserID ->
                 event.MessageEventContent -> Eff unit)
         (b : @Bot MessageHandler) (hs : list MessageHandler) (evt : event.Event),
    on_message call (register hs b) evt
    = bind (on_message call b evt)
           (fun _ => range_handlers call hs (event.RoomID evt) (event.Sender evt)
                                    (event.AsMessage (event.Content_ evt)))
    /\ exists rest,
         calls (on_message call (register hs b) evt)
         = calls (on_message call b evt) ++ rest.
Proof.
  intros MessageHandler call b hs evt.
  assert (E : on_message call (register hs b) evt
              = bind (on_message call b evt)
                     (fun _ => range_handlers call hs (event.RoomID evt) (event.Sender evt)
                                              (event.AsMessage (event.Content_ evt)))).
  { unfold on_message. rewrite handlers_register. apply range_handlers_app. }
  split; [exact E|].
  rewrite E. unfold bind, calls.
  destruct (on_message call b evt) as [t [u|reason]]; simpl.
  - eexists. reflexivity.
  - exists []. now rewrite app_nil_r.
Qed.

(** X5: on a bot with its client in place each of the three send operations
    makes exactly one call to the client and returns what that call answered,
    error or nil: nothing is retried and no error is dropped. *)
Theorem sends_fire_and_report :
  forall (MessageHandler : Type)
         (transmit : id.RoomID -> event.EventType -> event.MessageEventContent -> option error)
         (transmit_text : id.RoomID -> string -> option error)
         (b : @Bot MessageHandler) (c : mautrix.Client)
         (roomID : id.RoomID) (text html : string)
         (mentionUserIDs : list id.UserID),
    client b = Some c ->
    SendText transmit_text b roomID text
    = ([SendText_ roomID text], Returns (transmit_text roomID text))
    /\ (exists content,
          SendHTML transmit b roomID text html
          = ([SendMessageEvent_ roomID event.EventMessage content],
             Returns (transmit roomID event.EventMessage content)))
    /\ (exists content,
          SendReply transmit b roomID text html mentionUserIDs
          = ([SendMessageEvent_ roomID event.EventMessage content],
             Returns (transmit roomID event.EventMessage content))).
Proof.
  intros MessageHandler transmit transmit_text b c roomID text html ids Hc.
  unfold SendText, SendHTML, SendReply, the_client. rewrite Hc.
  unfold bind, ret. simpl.
  repeat split; eexists; reflexivity.
Qed.

Lemma sends_fire_and_report_witness :
  SendText (fun _ _ => Some (ErrorString "M_LIMIT_EXCEEDED")) sample_running
           "!R1:example" "pong!"
  = ([SendText_ "!R1:example" "pong!"], Returns (Some (ErrorString "M_LIMIT_EXCEEDED"))).
Proof.
  apply (sends_fire_and_report Sample never_fails
           (fun _ _ => Some (ErrorString "M_LIMIT_EXCEEDED"))
           sample_running sample_client "!R1:example" "pong!" "" []).
  reflexivity.
Defined.

(** ** The life of a bot *)

Section Coherence.

Context {MessageHandler : Type}.

Lemma bootstrap_keeps_registry (w : Boot) (b : @Bot MessageHandler) :
  handlers (fst (fst (bootstrap w b))) = handlers b
  /\ config (fst (fst (bootstrap w b))) = config b.
Proof.
  unfold bootstrap.
  destruct (NewClient_err w); [split; reflexivity|].
  destruct (NewCryptoHelper_err w); [split; reflexivity|].
  destruct (Init_res w); split; reflexivity.
Qed.

(** The calls of a bootstrap that went through, with the start of the sync,
    are [Run_calls]. *)
Lemma bootstrap_calls (w : Boot) (b b' : @Bot MessageHandler) t :
  bootstrap w b = (b', t, None) -> t ++ [SyncWithContext_] = Run_calls (config b).
Proof.
  unfold bootstrap.
  destruct (NewClient_err w); [discriminate|].
  destruct (NewCryptoHelper_err w); [discriminate|].
  destruct (Init_res w); [|discriminate].
  intros E; inversion E; subst. reflexivity.
Qed.

Lemma step_keeps_registry (s : @Sys MessageHandler) e s' :
  step s e = Some s' ->
  handlers (bot s') = handlers (bot s) /\ config (bot s') = config (bot s).
Proof.
  intros Hstep. destruct e; simpl in Hstep.
  - destruct (run s); try discriminate.
    pose proof (bootstrap_keeps_registry w (bot s)) as Hk.
    destruct (bootstrap w (bot s)) as [[b' t] r]. simpl in Hk.
    destruct r; inversion Hstep; subst; exact Hk.
  - inversion Hstep; subst; split; reflexivity.
  - destruct (task s); try discriminate. inversion Hstep; subst; split; reflexivity.
  - destruct (run s); try discriminate.
    destruct (syncCtxDone s); try discriminate. inversion Hstep; subst; split; reflexivity.
  - destruct (stop s); try discriminate;
      destruct (cancelSync (bot s)); inversion Hstep; subst; split; reflexivity.
  - destruct (stop s); try discriminate.
    destruct (syncWait (bot s) =? 0)%nat; try discriminate.
    destruct (crypto (bot s)); inversion Hstep; subst; split; reflexivity.
Qed.

Lemma step_extends_trace (s : @Sys MessageHandler) e s' :
  step s e = Some s' -> exists t, trace s' = trace s ++ t.
Proof.
  intros Hstep. destruct e; simpl in Hstep.
  - destruct (run s); try discriminate.
    destruct (bootstrap w (bot s)) as [[b' t] r].
    destruct r; inversion Hstep; subst; simpl; eexists; reflexivity.
  - inversion Hstep; subst. exists []. simpl. now rewrite app_nil_r.
  - destruct (task s); try discriminate. inversion Hstep; subst; simpl.
    eexists; reflexivity.
  - destruct (run s); try discriminate.
    destruct (syncCtxDone s); try discriminate. inversion Hstep; subst.
    exists []. simpl. now rewrite app_nil_r.
  - destruct (stop s); try discriminate;
      destruct (cancelSync (bot s)); inversion Hstep; subst; simpl; eexists; reflexivity.
  - destruct (stop s); try discriminate.
    destruct (syncWait (bot s) =? 0)%nat; try discriminate.
    destruct (crypto (bot s)); inversion Hstep; subst; simpl;
      [eexists; reflexivity | exists []; now rewrite app_nil_r].
Qed.

Lemma coherent_step (s : @Sys MessageHandler) e s' :
  coherent s -> step s e = Some s' -> coherent s'.
Proof.
  unfold coherent. intros HP Hstep. destruct e; simpl in Hstep.
  - destruct (run s) eqn:Er; try discriminate.
    destruct (task s) eqn:Et; try (exfalso; apply HP; reflexivity).
    destruct HP as (Hk & Hc & Hw).
    destruct (bootstrap w (bot s)) as [[b' t] r] eqn:E.
    destruct r as [err|]; inversion Hstep; subst; simpl.
    + destruct (bootstrap_failed _ _ _ _ _ E) as (F1 & F2 & F3 & _).
      rewrite ?Et, F1, F2, F3. auto.
    + destruct (bootstrap_succeeded _ _ _ _ E)
        as ((c & h & _ & Hh & _) & S2 & S3 & _).
      rewrite Hh, S2, S3, Hw. repeat split; discriminate.
  - inversion Hstep; subst; simpl. exact HP.
  - destruct (task s); try discriminate. inversion Hstep; subst; simpl.
    destruct HP as (Hk & Hc & Hw & Hr). rewrite Hw. auto.
  - destruct (run s) eqn:Er; try discriminate.
    destruct (syncCtxDone s); try discriminate.
    inversion Hstep; subst; simpl.
    destruct (task s); [exact HP| |];
      (destruct HP as (Hk & Hc & Hw & _); repeat split; auto; discriminate).
  - destruct (stop s); try discriminate;
      destruct (cancelSync (bot s)) eqn:Ec; inversion Hstep; subst; simpl;
      rewrite ?Ec; exact HP.
  - destruct (stop s); try discriminate.
    destruct (syncWait (bot s) =? 0)%nat eqn:Ew; try discriminate.
    destruct (crypto (bot s)) eqn:Ek; inversion Hstep; subst; simpl;
      rewrite ?Ek; exact HP.
Qed.

Lemma coherent_reachable (b : @Bot MessageHandler) es s :
  fresh b -> exec (init b) es = Some s -> coherent s.
Proof.
  intros (_ & Hk & Hc & Hw) Hex.
  apply (exec_invariant coherent coherent_step es (init b)); [|exact Hex].
  unfold coherent. simpl. auto.
Qed.

End Coherence.

(** ** Stop *)

(** C8 (amended): on a bot whose sync goroutine was never started, whether
    [Run] was never called or failed in its bootstrap, [Stop] calls no cancel
    function, its wait returns at once, it closes nothing, returns nil and
    leaves the bot as it was.  A [Stop] that follows a completed [Stop] leaves
    the bot unchanged and does not block when it comes directly after the
    first, or whenever the sync goroutine is not running at that time; when a
    [Run] has started the goroutine in between, it blocks in its wait like a
    first [Stop].  It is not a no-op on a bot that was started: it makes the
    same calls again, the cancel function when set and [Close] on the crypto
    helper when kept, and returns what that [Close] answers. *)
Theorem Stop_unstarted_and_repeated :
  forall (MessageHandler : Type) (cfg : Config) (b0 : @Bot MessageHandler)
         (hs : list MessageHandler) (es : list Ev) (s : @Sys MessageHandler)
         (r : option error),
    NewBot cfg = inl b0 ->
    exec (init (register hs b0)) es = Some s ->
    (task s = Absent -> stop s <> InWait ->
     exists s1 s2,
       step s CallStop = Some s1 /\ step s1 (WaitReturns r) = Some s2
       /\ stop s2 = Stopped None /\ trace s2 = trace s ++ [Wait_]
       /\ bot s2 = bot s /\ cancelled s2 = cancelled s)
    /\ (forall s0 r1,
          step s0 (WaitReturns r1) = Some s ->
          exists s1 s2,
            step s CallStop = Some s1 /\ step s1 (WaitReturns r) = Some s2
            /\ bot s2 = bot s /\ trace s2 = trace s ++ Stop_calls (bot s)
            /\ stop s2 = Stopped (match crypto (bot s) with
                                  | Some _ => r
                                  | None => None
                                  end))
    /\ (stop s <> InWait -> task s <> Syncing ->
        exists s1 s2,
          step s CallStop = Some s1 /\ step s1 (WaitReturns r) = Some s2
          /\ bot s2 = bot s /\ trace s2 = trace s ++ Stop_calls (bot s)
          /\ stop s2 = Stopped (match crypto (bot s) with
                                | Some _ => r
                                | None => None
                                end))
    /\ (stop s <> InWait -> task s = Syncing ->
        exists s1,
          step s CallStop = Some s1 /\ step s1 (WaitReturns r) = None
          /\ trace s1 = trace s ++ [cancelSync_; Wait_]).
Proof.
  intros MessageHandler cfg b0 hs es s r Hnew Hex.
  pose proof (coherent_reachable _ es s
                (fresh_register hs b0 (fresh_NewBot cfg b0 Hnew)) Hex) as Hcoh.
  assert (Hgo : syncWait (bot s) = 0 -> stop s <> InWait ->
                exists s1 s2,
                  step s CallStop = Some s1 /\ step s1 (WaitReturns r) = Some s2
                  /\ bot s2 = bot s /\ trace s2 = trace s ++ Stop_calls (bot s)
                  /\ stop s2 = Stopped (match crypto (bot s) with
                                        | Some _ => r
                                        | None => None
                                        end)).
  { intros Hw Hs. unfold Stop_calls. simpl.
    destruct (cancelSync (bot s)) eqn:Ec;
      destruct (crypto (bot s)) eqn:Ek;
      (destruct (stop s) eqn:Es; [|congruence|]);
      do 2 eexists; (split; [reflexivity|]); simpl; rewrite Hw, Ek; simpl;
      rewrite <- ?app_assoc, ?app_nil_r; repeat split; reflexivity. }
  split; [|split; [|split]].
  - intros Ht Hs. unfold coherent in Hcoh. rewrite Ht in Hcoh.
    destruct Hcoh as (Hk & Hc & Hw).
    destruct (Hgo Hw Hs) as (s1 & s2 & H1 & H2 & H3 & H4 & H5).
    exists s1, s2. unfold Stop_calls in H4. rewrite Hc, Hk in H4. rewrite Hk in H5.
    repeat split; auto.
    simpl in H1. rewrite Hc in H1.
    destruct (stop s); try congruence; inversion H1; subst; clear H1;
      simpl in H2; rewrite Hw, Hk in H2; inversion H2; subst; reflexivity.
  - intros s0 r1 Hstep. apply Hgo.
    + simpl in Hstep. destruct (stop s0); try discriminate.
      destruct (syncWait (bot s0) =? 0)%nat eqn:Ew; try discriminate.
      apply Nat.eqb_eq in Ew.
      destruct (crypto (bot s0)); inversion Hstep; subst; exact Ew.
    + simpl in Hstep. destruct (stop s0); try discriminate.
      destruct (syncWait (bot s0) =? 0)%nat; try discriminate.
      destruct (crypto (bot s0)); inversion Hstep; subst; discriminate.
  - intros Hs Ht. apply Hgo; [|exact Hs].
    unfold coherent in Hcoh. destruct (task s); [apply Hcoh | congruence | apply Hcoh].
  - intros Hs Ht. unfold coherent in Hcoh. rewrite Ht in Hcoh.
    destruct Hcoh as (_ & Hc & Hw & _).
    simpl. rewrite Hc.
    destruct (stop s) eqn:Es; [|congruence|];
      eexists; (split; [reflexivity|]); simpl; rewrite Hw; split; reflexivity.
Qed.

Lemma Stop_unstarted_and_repeated_witness :
  (exists s1 s2,
     step (init (register [echo] sample_bot)) CallStop = Some s1
     /\ step s1 (WaitReturns None) = Some s2
     /\ stop s2 = Stopped None
     /\ trace s2 = trace (init (register [echo] sample_bot)) ++ [Wait_]
     /\ bot s2 = bot (init (register [echo] sample_bot))
     /\ cancelled s2 = cancelled (init (register [echo] sample_bot)))
  /\ exists s,
       exec (init (register [echo] sample_bot))
            [CallRun all_fine; CancelCtx; RunWakes; SyncReturns (Some Canceled);
             CallStop; WaitReturns None] = Some s
       /\ exists s1 s2,
            step s CallStop = Some s1 /\ step s1 (WaitReturns None) = Some s2
            /\ bot s2 = bot s /\ trace s2 = trace s ++ Stop_calls (bot s)
            /\ stop s2 = Stopped (match crypto (bot s) with
                                  | Some _ => None
                                  | None => None
                                  end).
Proof.
  split.
  - refine (proj1 (Stop_unstarted_and_repeated Sample sample_config sample_bot [echo] []
                     (init (register [echo] sample_bot)) None _ _) _ _);
      [reflexivity | reflexivity | reflexivity | discriminate].
  - eexists. split; [lazy; reflexivity|].
    refine (proj1 (proj2 (proj2
              (Stop_unstarted_and_repeated Sample sample_config sample_bot [echo]
                 [CallRun all_fine; CancelCtx; RunWakes; SyncReturns (Some Canceled);
                  CallStop; WaitReturns None] _ None _ _))) _ _);
      lazy; try reflexivity; discriminate.
Defined.

(** C8, as stated, fails: on a bot that ran and was stopped, a second [Stop]
    calls the cancel function and [Close] on the crypto helper once more. *)
Lemma second_Stop_closes_again :
  exists s1 s2,
    exec (init sample_bot)
         [CallRun all_fine; CancelCtx; RunWakes; SyncReturns (Some Canceled);
          CallStop; WaitReturns None] = Some s1
    /\ exec s1 [CallStop; WaitReturns None] = Some s2
    /\ trace s2 = trace s1 ++ [cancelSync_; Wait_; Close_]
    /\ bot s2 = bot s1.
Proof.
  do 2 eexists.
  split; [lazy; reflexivity|].
  split; [lazy; reflexivity|].
  split; lazy; reflexivity.
Qed.


(** X6: nothing [Run], the sync goroutine or [Stop] does changes the handler
    list or the configuration: in every state of every run they are those of
    the bot the run began with, so an event is dispatched to exactly the
    handlers registered before the run. *)
Theorem lifecycle_keeps_registry :
  forall (MessageHandler : Type)
         (call : MessageHandler -> id.RoomID -> id.UserID ->
                 event.MessageEventContent -> Eff unit)
         (b : @Bot MessageHandler) (es : list Ev) (s : @Sys MessageHandler)
         (evt : event.Event),
    exec (init b) es = Some s ->
    handlers (bot s) = handlers b
    /\ config (bot s) = config b
    /\ on_message call (bot s) evt = on_message call b evt.
Proof.
  intros MessageHandler call b es s evt Hex.
  assert (H : handlers (bot s) = handlers b /\ config (bot s) = config b).
  { refine (exec_invariant
              (fun x => handlers (bot x) = handlers b /\ config (bot x) = config b)
              _ es (init b) s _ Hex).
    - intros x e x' [H1 H2] Hx.
      destruct (step_keeps_registry x e x' Hx) as [K1 K2].
      split; congruence.
    - split; reflexivity. }
  destruct H as [H1 H2]. repeat split; auto.
  unfold on_message. now rewrite H1.
Qed.

Lemma lifecycle_keeps_registry_witness :
  exists s,
    exec (init (register [echo; audit] sample_bot)) [CallRun all_fine; CallStop] = Some s
    /\ handlers (bot s) = [echo; audit].
Proof.
  eexists. split; [lazy; reflexivity|].
  refine (proj1 (lifecycle_keeps_registry Sample sample_call
                   (register [echo; audit] sample_bot) [CallRun all_fine; CallStop]
                   _ sample_message _)).
  lazy. reflexivity.
Defined.

(** X7: in every run of a bot fresh from [NewBot] and [OnMessage] the wait
    group counts the sync goroutine while it runs and is zero otherwise, so
    [Done] never takes it below zero; a [Stop] that has reached its wait
    stays blocked as long as the goroutine is inside [SyncWithContext], and
    can go on as soon as it is not. *)
Theorem Stop_waits_for_sync :
  forall (MessageHandler : Type) (cfg : Config) (b0 : @Bot MessageHandler)
         (hs : list MessageHandler) (es : list Ev) (s : @Sys MessageHandler)
         (r : option error),
    NewBot cfg = inl b0 ->
    exec (init (register hs b0)) es = Some s ->
    syncWait (bot s) = (match task s with Syncing => 1 | _ => 0 end)
    /\ (stop s = InWait -> task s = Syncing -> step s (WaitReturns r) = None)
    /\ (stop s = InWait -> task s <> Syncing ->
        exists s' err, step s (WaitReturns r) = Some s' /\ stop s' = Stopped err).
Proof.
  intros MessageHandler cfg b0 hs es s r Hnew Hex.
  pose proof (coherent_reachable _ es s
                (fresh_register hs b0 (fresh_NewBot cfg b0 Hnew)) Hex) as Hc.
  unfold coherent in Hc.
  assert (Hw : syncWait (bot s) = match task s with Syncing => 1 | _ => 0 end).
  { destruct (task s); apply Hc. }
  split; [exact Hw|]. split.
  - intros Hs Ht. simpl. rewrite Hs, Hw, Ht. reflexivity.
  - intros Hs Ht. simpl. rewrite Hs, Hw.
    destruct (task s); try congruence; simpl;
      destruct (crypto (bot s)); do 2 eexists; split; reflexivity.
Qed.

Lemma Stop_waits_for_sync_witness :
  exists s,
    exec (init (register [echo] sample_bot)) [CallRun all_fine; CallStop] = Some s
    /\ step s (WaitReturns None) = None.
Proof.
  eexists. split; [lazy; reflexivity|].
  refine (proj1 (proj2 (Stop_waits_for_sync Sample sample_config sample_bot [echo]
                          [CallRun all_fine; CallStop] _ None _ _)) _ _);
    lazy; reflexivity.
Defined.



(** X9: a graceful shutdown.  In every run of a bot fresh from [NewBot] and
    [OnMessage], when [Stop] is called while the sync goroutine is running it
    calls the cancel function and blocks; once [SyncWithContext] has returned,
    [Stop] closes the key store and returns what [Close] answered, the
    goroutine's [Done] comes before the [Close], and a [Run] that was still
    waiting can return nil. *)
Theorem graceful_shutdown :
  forall (MessageHandler : Type) (cfg : Config) (b0 : @Bot MessageHandler)
         (hs : list MessageHandler) (es : list Ev) (s : @Sys MessageHandler)
         (syncErr r : option error),
    NewBot cfg = inl b0 ->
    exec (init (register hs b0)) es = Some s ->
    task s = Syncing ->
    stop s <> InWait ->
    exists s1 s2 s3,
      step s CallStop = Some s1
      /\ step s1 (WaitReturns r) = None
      /\ step s1 (SyncReturns syncErr) = Some s2
      /\ step s2 (WaitReturns r) = Some s3
      /\ stop s3 = Stopped r
      /\ task s3 = Exited
      /\ trace s3 = trace s ++ [cancelSync_; Wait_] ++ after_sync syncErr ++ [Close_]
      /\ (run s = Waiting ->
          exists s4, step s3 RunWakes = Some s4 /\ run s4 = Returned None).
Proof.
  intros MessageHandler cfg b0 hs es s syncErr r Hnew Hex Ht Hs.
  pose proof (coherent_reachable _ es s
                (fresh_register hs b0 (fresh_NewBot cfg b0 Hnew)) Hex) as Hc.
  unfold coherent in Hc. rewrite Ht in Hc.
  destruct Hc as (Hk & Hcs & Hw & Hr).
  destruct (crypto (bot s)) as [h|] eqn:Ek; [|congruence].
  assert (E1 : step s CallStop
               = Some {| bot := bot s; ctxDone := ctxDone s; cancelled := true;
                         task := task s; run := run s; stop := InWait;
                         trace := trace s ++ [cancelSync_; Wait_] |}).
  { simpl. rewrite Hcs. destruct (stop s); congruence. }
  do 3 eexists.
  split; [exact E1|].
  split; [simpl; rewrite Hw; reflexivity|].
  split; [simpl; rewrite Ht; reflexivity|].
  split; [simpl; rewrite Hw, Ek; reflexivity|].
  simpl. repeat split.
  - now rewrite <- !app_assoc.
  - intros Hrun. unfold syncCtxDone. simpl. rewrite Hrun, orb_true_r.
    eexists. split; reflexivity.
Qed.

Lemma graceful_shutdown_witness :
  exists s,
    exec (init (register [echo] sample_bot)) [CallRun all_fine; CancelCtx] = Some s
    /\ exists s1 s2 s3,
         step s CallStop = Some s1
         /\ step s1 (WaitReturns None) = None
         /\ step s1 (SyncReturns (Some Canceled)) = Some s2
         /\ step s2 (WaitReturns None) = Some s3
         /\ stop s3 = Stopped None
         /\ task s3 = Exited
         /\ trace s3
            = trace s ++ [cancelSync_; Wait_] ++ after_sync (Some Canceled) ++ [Close_]
         /\ (run s = Waiting ->
             exists s4, step s3 RunWakes = Some s4 /\ run s4 = Returned None).
Proof.
  eexists. split; [lazy; reflexivity|].
  apply (graceful_shutdown Sample sample_config sample_bot [echo]
           [CallRun all_fine; CancelCtx] _ (Some Canceled) None).
  - reflexivity.
  - lazy. reflexivity.
  - reflexivity.
  - lazy. discriminate.
Defined.

(** X10: the calls [Run] itself makes, in its program order, are an initial
    segment of one fixed sequence, cut right after the call that failed and
    complete when none fails: the client is built for the configured
    homeserver, the message route and then the membership route are
    installed, the crypto helper is opened on the configured database, the
    login is made as the configured user with the configured password and
    with stored credentials, the start is logged, and only then the sync is
    started. *)
Theorem Run_call_order :
  forall (MessageHandler : Type) (b : @Bot MessageHandler) (w : Boot),
    exists s,
      step (init b) (CallRun w) = Some s
      /\ trace s
         = firstn
             (match NewClient_err w, NewCryptoHelper_err w, Init_res w with
              | Some _, _, _ => 1
              | None, Some _, _ => 4
              | None, None, inr _ => 5
              | None, None, inl _ => 7
              end)
             [NewClient_ (Homeserver (config b)) "" "";
              OnEventType_ event.EventMessage mautrix.onMessage;
              OnEventType_ event.StateMember mautrix.onMember;
              NewCryptoHelper_ "meow" (Database (config b));
              Init_ {| mautrix.Type_ := "m.login.password";
                       mautrix.IdentifierType := "m.id.user";
                       mautrix.User := Username (config b);
                       mautrix.Password := Password (config b);
                       mautrix.StoreCredentials := true |};
              Log_ {| log_level := InfoLevel; log_err := None;
                      log_fields := [("user", Username (config b))];
                      log_msg := "Matrix bot is running" |};
              SyncWithContext_].
Proof.
  intros MessageHandler b w.
  unfold step, init; simpl. unfold bootstrap.
  destruct (NewClient_err w); [eexists; split; reflexivity|].
  destruct (NewCryptoHelper_err w); [eexists; split; reflexivity|].
  destruct (Init_res w); eexists; split; reflexivity.
Qed.



(** ** The membership route, every case *)

(** X12: with the client in place the membership route either does nothing
    or makes one join call followed by one log entry carrying the room and
    the inviter: an info entry "Joined room after invite" when the join
    succeeded, an error entry carrying the join error when it failed.  It
    never logs without joining and never joins without logging. *)
Theorem on_member_logs_each_join :
  forall (MessageHandler : Type) (join : id.RoomID -> option error)
         (b : @Bot MessageHandler) (c : mautrix.Client) (evt : event.Event),
    client b = Some c ->
    calls (on_member join b evt) = []
    \/ exists entry,
         calls (on_member join b evt) = [JoinRoomByID_ (event.RoomID evt); Log_ entry]
         /\ log_fields entry
            = [("room_id", event.RoomID evt); ("inviter", event.Sender evt)]
         /\ log_err entry = join (event.RoomID evt)
         /\ (join (event.RoomID evt) = None ->
             log_level entry = InfoLevel /\ log_msg entry = "Joined room after invite")
         /\ (join (event.RoomID evt) <> None ->
             log_level entry = ErrorLevel
             /\ log_msg entry = "Failed to join room after invite").
Proof.
  intros MessageHandler join b c evt Hc.
  unfold on_member, the_client. rewrite Hc.
  unfold bind, ret, calls. simpl.
  destruct (String.eqb (event.GetStateKey evt) (mautrix.UserID c)
            && String.eqb (event.Membership (event.AsMember (event.Content_ evt)))
                          event.MembershipInvite); simpl; [|now left].
  right. destruct (join (event.RoomID evt)) as [err|]; simpl; eexists;
    (split; [reflexivity|]); simpl; repeat split; congruence.
Qed.

Lemma on_member_logs_each_join_witness :
  calls (on_member (fun _ => None) sample_running (sample_member "@bot:example" "invite"))
  = []
  \/ exists entry,
       calls (on_member (fun _ => None) sample_running
                        (sample_member "@bot:example" "invite"))
       = [JoinRoomByID_ "!R1:example"; Log_ entry]
       /\ log_fields entry = [("room_id", "!R1:example"); ("inviter", "@alice:example")]
       /\ log_err entry = None
       /\ (@None error = None ->
           log_level entry = InfoLevel /\ log_msg entry = "Joined room after invite")
       /\ (@None error <> None ->
           log_level entry = ErrorLevel
           /\ log_msg entry = "Failed to join room after invite").
Proof.
  apply (on_member_logs_each_join Sample (fun _ => None) sample_running sample_client
           (sample_member "@bot:example" "invite")).
  reflexivity.
Defined.

(** ** Byte strings *)

Lemma append_nil_r (s : string) : String.append s "" = s.
Proof. induction s as [|c s IH]; simpl; [reflexivity | now rewrite IH]. Qed.

Lemma append_assoc (s t u : string) :
  String.append (String.append s t) u = String.append s (String.append t u).
Proof. induction s as [|c s IH]; simpl; [reflexivity | now rewrite IH]. Qed.

Lemma length_append (s t : string) :
  String.length (String.append s t) = String.length s + String.length t.
Proof. induction s as [|c s IH]; simpl; [reflexivity | now rewrite IH]. Qed.

Lemma substring_all (s : string) : substring 0 (String.length s) s = s.
Proof. induction s as [|c s IH]; simpl; [reflexivity | now rewrite IH]. Qed.

Lemma substring_head (p r : string) :
  substring 0 (String.length p) (String.append p r) = p.
Proof.
  induction p as [|c p IH]; simpl; [now destruct r | now rewrite IH].
Qed.

Lemma substring_tail (p r : string) :
  substring (String.length p)
            (String.length (String.append p r) - String.length p)
            (String.append p r) = r.
Proof.
  induction p as [|c p IH]; simpl.
  - rewrite Nat.sub_0_r. apply substring_all.
  - exact IH.
Qed.

Lemma substring_split (n : nat) :
  forall s, n <= String.length s ->
            s = String.append (substring 0 n s) (substring n (String.length s - n) s).
Proof.
  induction n as [|n IH]; intros s Hn.
  - rewrite Nat.sub_0_r, substring_all. now destruct s.
  - destruct s as [|c s]; simpl in *; [inversion Hn|].
    f_equal. apply IH. now apply Nat.succ_le_mono.
Qed.

Lemma length_substring_0 (n : nat) :
  forall s, String.length (substring 0 n s) = Nat.min n (String.length s).
Proof.
  induction n as [|n IH]; intros s; [now destruct s|].
  destruct s as [|c s]; simpl; [reflexivity | now rewrite IH].
Qed.

Lemma HasPrefix_append (p r : string) : strings.HasPrefix (String.append p r) p = true.
Proof.
  unfold strings.HasPrefix. rewrite substring_head, String.eqb_refl, length_append.
  rewrite andb_true_r. apply Nat.leb_le, Nat.le_add_r.
Qed.

Lemma TrimPrefix_append (p r : string) : strings.TrimPrefix (String.append p r) p = r.
Proof.
  unfold strings.TrimPrefix. rewrite HasPrefix_append. apply substring_tail.
Qed.

Lemma HasPrefix_split (s p : string) :
  strings.HasPrefix s p = true -> s = String.append p (strings.TrimPrefix s p).
Proof.
  intros H. unfold strings.TrimPrefix. rewrite H.
  unfold strings.HasPrefix in H. apply andb_true_iff in H. destruct H as [Hl He].
  apply Nat.leb_le in Hl. apply String.eqb_eq in He.
  rewrite <- He at 1. now apply substring_split.
Qed.

Lemma concat_cons (x : string) (l : list string) :
  String.concat "" (x :: l) = String.append x (String.concat "" l).
Proof.
  destruct l as [|y l]; simpl; [now rewrite append_nil_r | reflexivity].
Qed.

Lemma on_bot_OnBot {MessageHandler : Type} (t : list (@Action MessageHandler)) :
  on_bot (map OnBot t) = t.
Proof. induction t as [|a t IH]; simpl; [reflexivity | now rewrite IH]. Qed.

(** ** The echo handlers *)

(** X13: the echo bot of the README.  On a bot with its client in place and
    the echo handler as its only handler, every inbound message event leads
    to exactly one handler call, which makes exactly one plain-text send to
    the room of the event with the body "Echo: " followed by the body of the
    message, and the dispatch returns whatever the server answers to the
    send. *)
Theorem readme_echo_dispatch :
  forall (MessageHandler : Type)
         (transmit_text : id.RoomID -> string -> option error)
         (call : MessageHandler -> id.RoomID -> id.UserID ->
                 event.MessageEventContent -> Eff unit)
         (b : @Bot MessageHandler) (c : mautrix.Client) (h : MessageHandler)
         (evt : event.Event),
    client b = Some c ->
    handlers b = [h] ->
    (forall roomID sender msg,
       call h roomID sender msg = readme_echo transmit_text b roomID sender msg) ->
    on_message call b evt
    = ([Invoke h (event.RoomID evt) (event.Sender evt)
               (event.AsMessage (event.Content_ evt))
               [SendText_ (event.RoomID evt)
                  (String.append "Echo: "
                     (event.Body (event.AsMessage (event.Content_ evt))))]],
       Returns tt).
Proof.
  intros MessageHandler transmit_text call b c h evt Hc Hh Hcall.
  unfold on_message. rewrite Hh. simpl.
  unfold bind, invoke, calls, outcome. rewrite Hcall.
  unfold readme_echo, SendText, the_client. rewrite Hc.
  reflexivity.
Qed.

Lemma readme_echo_dispatch_witness :
  on_message (fun _ => readme_echo (fun _ _ => Some (ErrorString "M_LIMIT_EXCEEDED"))
                                   (OnMessage echo sample_running))
             (OnMessage echo sample_running) sample_message
  = ([Invoke echo "!R1:example" "@alice:example"
             (event.AsMessage (event.Content_ sample_message))
             [SendText_ "!R1:example" "Echo: hi"]],
     Returns tt).
Proof.
  apply (readme_echo_dispatch Sample (fun _ _ => Some (ErrorString "M_LIMIT_EXCEEDED"))
           (fun _ => readme_echo (fun _ _ => Some (ErrorString "M_LIMIT_EXCEEDED"))
                                 (OnMessage echo sample_running))
           (OnMessage echo sample_running) sample_client echo sample_message).
  - reflexivity.
  - reflexivity.
  - reflexivity.
Defined.

(** X14: the handler of [examples/echobot], on a bot with its client in
    place.  It always prints the message first.  A message whose body does
    not begin with "!echo " leads to no call on the bot.  A message "!echo "
    followed by [rest] leads to exactly one send: a text message with body
    [rest], the rendering of [rest] as HTML body, mentioning the sender and
    only the sender, with the room-wide flag set.  A failed send is reported
    on stderr and the handler returns all the same. *)
Theorem echobot_replies_to_echo :
  forall (MessageHandler : Type)
         (transmit : id.RoomID -> event.EventType -> event.MessageEventContent -> option error)
         (MarkdownToHTML : string -> string)
         (b : @Bot MessageHandler) (c : mautrix.Client)
         (roomID : id.RoomID) (sender : id.UserID) (msg : event.MessageEventContent),
    client b = Some c ->
    snd (echobot_handler transmit MarkdownToHTML b roomID sender msg) = Returns tt
    /\ (exists more,
          fst (echobot_handler transmit MarkdownToHTML b roomID sender msg)
          = Stdout (String.concat "" ["["; roomID; "] "; sender; ": "; event.Body msg; LF])
            :: more)
    /\ (strings.HasPrefix (event.Body msg) "!echo " = false ->
        on_bot (fst (echobot_handler transmit MarkdownToHTML b roomID sender msg)) = [])
    /\ (forall rest,
          event.Body msg = String.append "!echo " rest ->
          on_bot (fst (echobot_handler transmit MarkdownToHTML b roomID sender msg))
          = [SendMessageEvent_ roomID event.EventMessage
               {| event.MsgType := event.MsgText;
                  event.Body := rest;
                  event.Format_ := event.FormatHTML;
                  event.FormattedBody := MarkdownToHTML rest;
                  event.Mentions_ :=
                    Some {| event.UserIDs := [sender]; event.Room := true |} |}])
    /\ (strings.HasPrefix (event.Body msg) "!echo " = true ->
        exists rest, event.Body msg = String.append "!echo " rest).
Proof.
  intros MessageHandler transmit MarkdownToHTML b c roomID sender msg Hc.
  unfold echobot_handler, SendReply, the_client. rewrite Hc.
  unfold bind, ret, SendMessageEvent.
  cbn [fst snd length Nat.ltb Nat.leb app map].
  destruct (strings.HasPrefix (event.Body msg) "!echo ") eqn:Hp; cbn [negb].
  - split; [|split; [|split; [|split]]].
    + destruct (transmit roomID event.EventMessage _); reflexivity.
    + destruct (transmit roomID event.EventMessage _); eexists; reflexivity.
    + discriminate.
    + intros rest Hrest.
      replace (strings.TrimPrefix (event.Body msg) "!echo ") with rest
        by (rewrite Hrest; symmetry; apply TrimPrefix_append).
      destruct (transmit roomID event.EventMessage _); reflexivity.
    + intros _. eexists. now apply HasPrefix_split.
  - split; [|split; [|split; [|split]]].
    + reflexivity.
    + eexists; reflexivity.
    + reflexivity.
    + intros rest Hrest. rewrite Hrest, HasPrefix_append in Hp. discriminate.
    + discriminate.
Qed.

Lemma echobot_replies_to_echo_witness :
  on_bot (fst (echobot_handler never_fails (fun md => String.append "<p>" md)
                               sample_running "!R1:example" "@alice:example"
                               {| event.MsgType := event.MsgText;
                                  event.Body := String.append "!echo " "hello";
                                  event.Format_ := ""; event.FormattedBody := "";
                                  event.Mentions_ := None |}))
  = [SendMessageEvent_ "!R1:example" event.EventMessage
       {| event.MsgType := event.MsgText;
          event.Body := "hello";
          event.Format_ := event.FormatHTML;
          event.FormattedBody := "<p>hello";
          event.Mentions_ :=
            Some {| event.UserIDs := ["@alice:example"]; event.Room := true |} |}].
Proof.
  refine (proj1 (proj2 (proj2 (proj2
            (echobot_replies_to_echo Sample never_fails (fun md => String.append "<p>" md)
               sample_running sample_client "!R1:example" "@alice:example"
               {| event.MsgType := event.MsgText;
                  event.Body := String.append "!echo " "hello";
                  event.Format_ := ""; event.FormattedBody := "";
                  event.Mentions_ := None |}
               eq_refl))))
            "hello" eq_refl).
Defined.

(** ** The project manager's Gitea commands *)

Section Gitea.

Variable fmt_d : Z -> string.

(** The loop with its break writes the first issues, as many as are left up
    to index 25, and the closing line exactly when issues remain. *)
Lemma issues_from_firstn (total : nat) (issues : list Issue) :
  forall i, i <= 25 ->
    issues_from fmt_d total i issues
    = String.append
        (String.concat "" (map (issue_line fmt_d) (firstn (25 - i) issues)))
        (if (25 - i <? length issues)%nat
         then String.concat "" [LF; "_...and "; fmt_d (Z.of_nat total - 25); " more_"; LF]
         else "").
Proof.
  induction issues as [|iss rest IH]; intros i Hi.
  - rewrite firstn_nil. reflexivity.
  - cbn [issues_from].
    destruct (25 <=? i)%nat eqn:E.
    + apply Nat.leb_le in E. replace (25 - i) with 0 by lia. reflexivity.
    + apply Nat.leb_gt in E.
      replace (25 - i) with (S (25 - S i)) by lia.
      cbn [firstn map length]. rewrite concat_cons, append_assoc.
      rewrite (IH (S i)) by lia.
      reflexivity.
Qed.

End Gitea.

(** X15: [cmdIssues] with Gitea connected, a repository named and the issues
    fetched, on a bot with its client in place: Gitea is asked once and the
    bot sends exactly one reply, mentioning the sender, whose text is the
    header with the number of issues, one line for each of the first 25
    issues in order, and, exactly when there are more than 25, a closing line
    with the number left out; the HTML body is the rendering of that text. *)
Theorem cmdIssues_lists_first_25 :
  forall (MessageHandler : Type)
         (transmit : id.RoomID -> event.EventType -> event.MessageEventContent -> option error)
         (transmit_text : id.RoomID -> string -> option error)
         (MarkdownToHTML : string -> string)
         (GetAllIssues : string -> string -> list Issue + error)
         (fmt_d : Z -> string)
         (s : services) (b : @Bot MessageHandler) (c : mautrix.Client)
         (roomID : id.RoomID) (sender : id.UserID) (repo : string)
         (issues : list Issue),
    client b = Some c ->
    git s = true ->
    repo <> "" ->
    GetAllIssues (giteaOwner s) repo = inl issues ->
    exists md,
      cmdIssues transmit transmit_text MarkdownToHTML GetAllIssues fmt_d
                s b roomID sender repo
      = ([GetAllIssues_ (giteaOwner s) repo;
          OnBot (SendMessageEvent_ roomID event.EventMessage
                   {| event.MsgType := event.MsgText;
                      event.Body := md;
                      event.Format_ := event.FormatHTML;
                      event.FormattedBody := MarkdownToHTML md;
                      event.Mentions_ :=
                        Some {| event.UserIDs := [sender]; event.Room := true |} |})],
         Returns tt)
      /\ md = String.append
                (String.concat ""
                   ["**Issues for "; repo; "** ("; fmt_d (Z.of_nat (length issues));
                    "):"; LF; LF])
                (String.append
                   (String.concat "" (map (issue_line fmt_d) (firstn 25 issues)))
                   (if (25 <? length issues)%nat
                    then String.concat ""
                           [LF; "_...and "; fmt_d (Z.of_nat (length issues) - 25)%Z;
                            " more_"; LF]
                    else "")).
Proof.
  intros MessageHandler transmit transmit_text MarkdownToHTML GetAllIssues fmt_d
         s b c roomID sender repo issues Hc Hgit Hrepo Hget.
  eexists. split.
  - unfold cmdIssues. rewrite Hgit.
    apply is_empty_false in Hrepo. rewrite Hrepo, Hget.
    unfold dropped, SendReply, the_client. rewrite Hc.
    reflexivity.
  - rewrite (issues_from_firstn fmt_d (length issues) issues 0) by lia.
    reflexivity.
Qed.

Lemma cmdIssues_lists_first_25_witness :
  exists md,
    cmdIssues never_fails (fun _ _ => None) (fun md => md)
              (fun _ _ => inl [{| Index := 7%Z; State := "closed"; Title := "Crash" |}])
              (fun _ => "n")
              {| ai := false; git := true; oo := false; giteaOwner := "org" |}
              sample_running "!R1:example" "@alice:example" "bot"
    = ([GetAllIssues_ "org" "bot";
        OnBot (SendMessageEvent_ "!R1:example" event.EventMessage
                 {| event.MsgType := event.MsgText;
                    event.Body := md;
                    event.Format_ := event.FormatHTML;
                    event.FormattedBody := md;
                    event.Mentions_ :=
                      Some {| event.UserIDs := ["@alice:example"]; event.Room := true |} |})],
       Returns tt)
    /\ md = String.append
              (String.concat "" ["**Issues for "; "bot"; "** ("; "n"; "):"; LF; LF])
              (String.append
                 (String.concat ""
                    (map (issue_line (fun _ => "n"))
                         (firstn 25 [{| Index := 7%Z; State := "closed"; Title := "Crash" |}])))
                 "").
Proof.
  apply (cmdIssues_lists_first_25 Sample never_fails (fun _ _ => None) (fun md => md)
           (fun _ _ => inl [{| Index := 7%Z; State := "closed"; Title := "Crash" |}])
           (fun _ => "n")
           {| ai := false; git := true; oo := false; giteaOwner := "org" |}
           sample_running sample_client "!R1:example" "@alice:example" "bot"
           [{| Index := 7%Z; State := "closed"; Title := "Crash" |}]).
  - reflexivity.
  - reflexivity.
  - discriminate.
  - reflexivity.
Defined.

(** X16: [cmdIssues] asks Gitea only when it is connected and a repository
    is named.  Without Gitea, without a repository name, and when Gitea
    answers with an error, the bot sends exactly one plain text: "Gitea is
    not configured.", the usage line, or "Error: " followed by the text of
    the error. *)
Theorem cmdIssues_refusals :
  forall (MessageHandler : Type)
         (transmit : id.RoomID -> event.EventType -> event.MessageEventContent -> option error)
         (transmit_text : id.RoomID -> string -> option error)
         (MarkdownToHTML : string -> string)
         (GetAllIssues : string -> string -> list Issue + error)
         (fmt_d : Z -> string)
         (s : services) (b : @Bot MessageHandler) (c : mautrix.Client)
         (roomID : id.RoomID) (sender : id.UserID) (repo : string),
    client b = Some c ->
    (git s = false ->
     cmdIssues transmit transmit_text MarkdownToHTML GetAllIssues fmt_d
               s b roomID sender repo
     = ([OnBot (SendText_ roomID "Gitea is not configured.")], Returns tt))
    /\ (git s = true -> repo = "" ->
        cmdIssues transmit transmit_text MarkdownToHTML GetAllIssues fmt_d
                  s b roomID sender repo
        = ([OnBot (SendText_ roomID "Usage: `!issues <repo-name>`")], Returns tt))
    /\ (forall err,
          git s = true -> repo <> "" ->
          GetAllIssues (giteaOwner s) repo = inr err ->
          cmdIssues transmit transmit_text MarkdownToHTML GetAllIssues fmt_d
                    s b roomID sender repo
          = ([GetAllIssues_ (giteaOwner s) repo;
              OnBot (SendText_ roomID (String.append "Error: " (Error err)))],
             Returns tt)).
Proof.
  intros MessageHandler transmit transmit_text MarkdownToHTML GetAllIssues fmt_d
         s b c roomID sender repo Hc.
  unfold cmdIssues, dropped, SendText, the_client. rewrite Hc.
  split; [|split].
  - intros ->. reflexivity.
  - intros -> ->. reflexivity.
  - intros err -> Hrepo Hget. apply is_empty_false in Hrepo.
    rewrite Hrepo, Hget. reflexivity.
Qed.

Lemma cmdIssues_refusals_witness :
  cmdIssues never_fails (fun _ _ => None) (fun md => md)
            (fun _ _ => inr (ErrorString "404 Not Found")) (fun _ => "n")
            {| ai := false; git := true; oo := false; giteaOwner := "org" |}
            sample_running "!R1:example" "@alice:example" "bot"
  = ([GetAllIssues_ "org" "bot";
      OnBot (SendText_ "!R1:example" "Error: 404 Not Found")],
     Returns tt).
Proof.
  refine (proj2 (proj2
            (cmdIssues_refusals Sample never_fails (fun _ _ => None) (fun md => md)
               (fun _ _ => inr (ErrorString "404 Not Found")) (fun _ => "n")
               {| ai := false; git := true; oo := false; giteaOwner := "org" |}
               sample_running sample_client "!R1:example" "@alice:example" "bot"
               eq_refl))
            (ErrorString "404 Not Found") eq_refl _ eq_refl).
  discriminate.
Defined.

(** X17: a repository line of [cmdRepos] shows the description unchanged when
    it has at most 60 bytes, and otherwise its first 60 bytes followed by
    "...": what is shown of a description never exceeds 63 bytes and always
    starts the way the description does. *)
Theorem repo_line_cuts_description :
  forall (r : Repository),
    exists shown,
      repo_line r = String.concat "" ["- **"; Name r; "** — "; shown; LF]
      /\ String.length shown <= 63
      /\ (String.length (Description r) <= 60 -> shown = Description r)
      /\ (60 < String.length (Description r) ->
          shown = String.append (substring 0 60 (Description r)) "..."
          /\ String.length shown = 63
          /\ strings.HasPrefix (Description r) (substring 0 60 (Description r)) = true).
Proof.
  intros r. unfold repo_line.
  destruct (60 <? String.length (Description r))%nat eqn:E.
  - apply Nat.ltb_lt in E.
    assert (L : String.length (substring 0 60 (Description r)) = 60).
    { rewrite length_substring_0. lia. }
    eexists. split; [reflexivity|].
    rewrite length_append, L. cbn [String.length].
    repeat split; try lia.
    unfold strings.HasPrefix. rewrite L.
    replace (60 <=? String.length (Description r))%nat with true
      by (symmetry; apply Nat.leb_le; lia).
    rewrite String.eqb_refl. reflexivity.
  - apply Nat.ltb_ge in E.
    eexists. split; [reflexivity|].
    repeat split; try lia.
Qed.

(** X18: [cmdRepos] on a bot with its client in place.  Without Gitea it
    sends the one text "Gitea is not configured." and asks nothing.  With
    Gitea it asks once for the repositories of the configured owner; on an
    error it sends the one text "Error: " followed by the error, and
    otherwise exactly one reply mentioning the sender, whose text is the
    header with the number of repositories followed by one line for every
    repository, in order and none left out. *)
Theorem cmdRepos_answers_once :
  forall (MessageHandler : Type)
         (transmit : id.RoomID -> event.EventType -> event.MessageEventContent -> option error)
         (transmit_text : id.RoomID -> string -> option error)
         (MarkdownToHTML : string -> string)
         (GetAllRepos : string -> list Repository + error)
         (fmt_d : Z -> string)
         (s : services) (b : @Bot MessageHandler) (c : mautrix.Client)
         (roomID : id.RoomID) (sender : id.UserID),
    client b = Some c ->
    cmdRepos transmit transmit_text MarkdownToHTML GetAllRepos fmt_d s b roomID sender
    = if git s
      then
        match GetAllRepos (giteaOwner s) with
        | inr err =>
            ([GetAllRepos_ (giteaOwner s);
              OnBot (SendText_ roomID (String.append "Error: " (Error err)))],
             Returns tt)
        | inl repos =>
            let md :=
              String.append
                (String.concat ""
                   ["**Repositories** ("; fmt_d (Z.of_nat (length repos)); "):"; LF; LF])
                (String.concat "" (map repo_line repos)) in
            ([GetAllRepos_ (giteaOwner s);
              OnBot (SendMessageEvent_ roomID event.EventMessage
                       {| event.MsgType := event.MsgText;
                          event.Body := md;
                          event.Format_ := event.FormatHTML;
                          event.FormattedBody := MarkdownToHTML md;
                          event.Mentions_ :=
                            Some {| event.UserIDs := [sender]; event.Room := true |} |})],
             Returns tt)
        end
      else ([OnBot (SendText_ roomID "Gitea is not configured.")], Returns tt).
Proof.
  intros MessageHandler transmit transmit_text MarkdownToHTML GetAllRepos fmt_d
         s b c roomID sender Hc.
  unfold cmdRepos, dropped, SendText, SendReply, the_client. rewrite Hc.
  destruct (git s); [|reflexivity].
  destruct (GetAllRepos (giteaOwner s)); reflexivity.
Qed.

Lemma cmdRepos_answers_once_witness :
  cmdRepos never_fails (fun _ _ => None) (fun md => md)
           (fun _ => inr (ErrorString "401 Unauthorized")) (fun _ => "n")
           {| ai := false; git := true; oo := false; giteaOwner := "org" |}
           sample_running "!R1:example" "@alice:example"
  = ([GetAllRepos_ "org"; OnBot (SendText_ "!R1:example" "Error: 401 Unauthorized")],
     Returns tt).
Proof.
  apply (cmdRepos_answers_once Sample never_fails (fun _ _ => None) (fun md => md)
           (fun _ => inr (ErrorString "401 Unauthorized")) (fun _ => "n")
           {| ai := false; git := true; oo := false; giteaOwner := "org" |}
           sample_running sample_client "!R1:example" "@alice:example").
  reflexivity.
Defined.

(** X19: the status line of the project manager is never empty: it is
    "_none connected_" exactly when no service is connected, and otherwise
    the names of the connected services, Gitea before OnlyOffice before the
    AI, separated by commas. *)
Theorem statusLine_names_services :
  forall (s : services),
    statusLine s <> ""
    /\ (statusLine s = "_none connected_"
        <-> git s = false /\ oo s = false /\ ai s = false)
    /\ statusLine s
       = (if negb (git s || oo s || ai s) then "_none connected_"
          else strings.Join
                 ((if git s then ["Gitea"] else [])
                  ++ (if oo s then ["OnlyOffice"] else [])
                  ++ (if ai s then ["Ollama AI"] else [])) ", ").
Proof.
  intros [a g o owner]. unfold statusLine. simpl.
  destruct a, g, o; simpl; repeat split; try discriminate; try tauto;
    intros H; try discriminate H; destruct H as (H1 & H2 & H3); discriminate.
Qed.

(** ** Sending needs the bootstrap *)



(** ** The AI assistant *)

Lemma fold_left_OnJson (responses : list (option string)) :
  forall chunks, fold_left OnJson responses chunks = chunks ++ texts responses.
Proof.
  induction responses as [|res responses IH]; intros chunks; simpl.
  - now rewrite app_nil_r.
  - rewrite IH. destruct res; simpl; [now rewrite <- app_assoc | reflexivity].
Qed.

(** X21: the handler of [examples/ai-assistant], on a bot with its client in
    place.  A message that does not begin with "::", that is "::" alone, or
    that has only trimmable space after the "::" is ignored: nothing is
    printed, Ollama is not queried, nothing is sent.  Otherwise the prompt is
    printed and Ollama is queried once, with the model "llama3.2:3b", the
    trimmed prompt and temperature 0.7.  When the query fails the error is
    printed on stderr, the bot sends one plain-text apology and the chunks
    received are dropped.  When it succeeds the bot sends exactly one reply,
    mentioning the sender, whose text is the texts of the responses joined in
    the order received, with the rendering of that text as HTML body; a
    failed send is reported on stderr; and the handler returns. *)
Theorem ai_assistant_joins_chunks :
  forall (MessageHandler : Type)
         (transmit : id.RoomID -> event.EventType -> event.MessageEventContent -> option error)
         (transmit_text : id.RoomID -> string -> option error)
         (MarkdownToHTML : string -> string)
         (TrimSpace : string -> string)
         (Query : string -> string -> list (option string) * option error)
         (b : @Bot MessageHandler) (c : mautrix.Client)
         (roomID : id.RoomID) (sender : id.UserID) (msg : event.MessageEventContent),
    client b = Some c ->
    (strings.HasPrefix (event.Body msg) "::" = false ->
     ai_assistant_handler transmit transmit_text MarkdownToHTML TrimSpace Query
                          b roomID sender msg = ([], Returns tt))
    /\ (forall rest,
          event.Body msg = String.append "::" rest ->
          rest = "" \/ TrimSpace rest = "" ->
          ai_assistant_handler transmit transmit_text MarkdownToHTML TrimSpace Query
                               b roomID sender msg = ([], Returns tt))
    /\ (forall rest queryErr,
          event.Body msg = String.append "::" rest ->
          rest <> "" -> TrimSpace rest <> "" ->
          snd (Query "llama3.2:3b" (TrimSpace rest)) = Some queryErr ->
          ai_assistant_handler transmit transmit_text MarkdownToHTML TrimSpace Query
                               b roomID sender msg
          = ([Stdout (String.concat ""
                        ["["; roomID; "] "; sender; " asked: "; TrimSpace rest; LF]);
              Query_ "llama3.2:3b" (TrimSpace rest) "0.7";
              Stderr (String.concat "" ["Ollama error: "; Error queryErr; LF]);
              OnBot (SendText_ roomID
                       "Sorry, I encountered an error generating a response.")],
             Returns tt))
    /\ (forall rest,
          event.Body msg = String.append "::" rest ->
          rest <> "" -> TrimSpace rest <> "" ->
          snd (Query "llama3.2:3b" (TrimSpace rest)) = None ->
          let content :=
            {| event.MsgType := event.MsgText;
               event.Body :=
                 String.concat "" (texts (fst (Query "llama3.2:3b" (TrimSpace rest))));
               event.Format_ := event.FormatHTML;
               event.FormattedBody :=
                 MarkdownToHTML
                   (String.concat ""
                      (texts (fst (Query "llama3.2:3b" (TrimSpace rest)))));
               event.Mentions_ :=
                 Some {| event.UserIDs := [sender]; event.Room := true |} |} in
          ai_assistant_handler transmit transmit_text MarkdownToHTML TrimSpace Query
                               b roomID sender msg
          = ([Stdout (String.concat ""
                        ["["; roomID; "] "; sender; " asked: "; TrimSpace rest; LF]);
              Query_ "llama3.2:3b" (TrimSpace rest) "0.7";
              OnBot (SendMessageEvent_ roomID event.EventMessage content)]
             ++ match transmit roomID event.EventMessage content with
                | Some sendErr =>
                    [Stderr (String.concat ""
                               ["Failed to send reply: "; Error sendErr; LF])]
                | None => []
                end,
             Returns tt)).
Proof.
  intros MessageHandler transmit transmit_text MarkdownToHTML TrimSpace Query
         b c roomID sender msg Hc.
  assert (Hguard : forall rest,
            event.Body msg = String.append "::" rest -> rest <> "" ->
            ai_assistant_handler transmit transmit_text MarkdownToHTML TrimSpace Query
                                 b roomID sender msg
            = (if is_empty (TrimSpace rest) then ([], Returns tt)
               else
                 let line :=
                   Stdout (String.concat ""
                             ["["; roomID; "] "; sender; " asked: "; TrimSpace rest; LF]) in
                 let asked := Query_ model (TrimSpace rest) "0.7" in
                 let chunks := fold_left OnJson (fst (Query model (TrimSpace rest))) [] in
                 match snd (Query model (TrimSpace rest)) with
                 | Some queryErr =>
                     let sent :=
                       dropped (SendText transmit_text b roomID
                                  "Sorry, I encountered an error generating a response.") in
                     (line :: asked
                        :: Stderr (String.concat "" ["Ollama error: "; Error queryErr; LF])
                        :: fst sent,
                      snd sent)
                 | None =>
                     let response := strings.Join chunks "" in
                     let html := MarkdownToHTML response in
                     let sent := SendReply transmit b roomID response html [sender] in
                     match snd sent with
                     | Returns (Some sendErr) =>
                         (line :: asked :: map OnBot (fst sent)
                            ++ [Stderr (String.concat ""
                                          ["Failed to send reply: "; Error sendErr; LF])],
                          Returns tt)
                     | Returns None => (line :: asked :: map OnBot (fst sent), Returns tt)
                     | Panics reason =>
                         (line :: asked :: map OnBot (fst sent), Panics reason)
                     end
                 end)).
  { intros rest Hbody Hrest. unfold ai_assistant_handler.
    rewrite Hbody.
    change (String.length commandPrefix) with (String.length "::").
    rewrite (substring_head "::" rest), (substring_tail "::" rest).
    rewrite length_append.
    destruct rest as [|ch rest']; [congruence|]. reflexivity. }
  split; [|split; [|split]].
  - intros Hp. unfold ai_assistant_handler.
    unfold strings.HasPrefix in Hp. apply andb_false_iff in Hp.
    change (String.length commandPrefix) with 2.
    change (String.length "::") with 2 in Hp.
    destruct Hp as [Hl|He].
    + apply Nat.leb_gt in Hl.
      replace (String.length (event.Body msg) <=? 2)%nat with true
        by (symmetry; apply Nat.leb_le; lia).
      reflexivity.
    + unfold commandPrefix. rewrite He, orb_true_r. reflexivity.
  - intros rest Hbody [Hrest|Htrim].
    + subst rest. unfold ai_assistant_handler. rewrite Hbody. reflexivity.
    + destruct rest as [|ch rest'].
      * unfold ai_assistant_handler. rewrite Hbody. reflexivity.
      * rewrite (Hguard _ Hbody) by discriminate. now rewrite Htrim.
  - intros rest queryErr Hbody Hrest Htrim Hq.
    rewrite (Hguard _ Hbody Hrest).
    apply is_empty_false in Htrim. rewrite Htrim.
    cbv zeta. unfold model. rewrite Hq.
    unfold dropped, SendText, the_client. rewrite Hc. reflexivity.
  - intros rest Hbody Hrest Htrim Hq.
    rewrite (Hguard _ Hbody Hrest).
    apply is_empty_false in Htrim. rewrite Htrim.
    cbv zeta. unfold model. rewrite Hq.
    rewrite fold_left_OnJson. cbn [app]. unfold strings.Join.
    unfold SendReply, the_client. rewrite Hc.
    unfold bind, ret, SendMessageEvent. cbn [fst snd length Nat.ltb Nat.leb app map].
    destruct (transmit roomID event.EventMessage _); reflexivity.
Qed.

Lemma ai_assistant_joins_chunks_witness :
  ai_assistant_handler never_fails (fun _ _ => None) (fun md => md) (fun p => p)
    (fun _ _ => ([Some "Go "; None; Some "is a language."], None))
    sample_running "!R1:example" "@alice:example"
    {| event.MsgType := event.MsgText;
       event.Body := String.append "::" "what is Go?";
       event.Format_ := ""; event.FormattedBody := "";
       event.Mentions_ := None |}
  = ([Stdout (String.concat ""
                ["["; "!R1:example"; "] "; "@alice:example"; " asked: "; "what is Go?"; LF]);
      Query_ "llama3.2:3b" "what is Go?" "0.7";
      OnBot (SendMessageEvent_ "!R1:example" event.EventMessage
               {| event.MsgType := event.MsgText;
                  event.Body := "Go is a language.";
                  event.Format_ := event.FormatHTML;
                  event.FormattedBody := "Go is a language.";
                  event.Mentions_ :=
                    Some {| event.UserIDs := ["@alice:example"];
                            event.Room := true |} |})],
     Returns tt).
Proof.
  refine (proj2 (proj2 (proj2
            (ai_assistant_joins_chunks Sample never_fails (fun _ _ => None) (fun md => md)
               (fun p => p)
               (fun _ _ => ([Some "Go "; None; Some "is a language."], None))
               sample_running sample_client "!R1:example" "@alice:example"
               {| event.MsgType := event.MsgText;
                  event.Body := String.append "::" "what is Go?";
                  event.Format_ := ""; event.FormattedBody := "";
                  event.Mentions_ := None |}
               eq_refl)))
            "what is Go?" eq_refl _ _ eq_refl); discriminate.
Defined.

(** ** The command dispatcher *)

(** X22: the split of a command line.  The name is what stands before the
    first space and contains no space; when the line has a space, the name,
    a space and the rest make up the line again, and when it has none the
    name is the whole line. *)
Theorem SplitN2_cuts_at_first_space :
  forall (body : string),
    ~ In " "%char (list_ascii_of_string (fst (commandbot.SplitN2 body)))
    /\ match snd (commandbot.SplitN2 body) with
       | Some rest =>
           body = String.append (fst (commandbot.SplitN2 body)) (String " " rest)
       | None =>
           body = fst (commandbot.SplitN2 body)
           /\ ~ In " "%char (list_ascii_of_string body)
       end.
Proof.
  induction body as [|ch body [IH1 IH2]]; simpl.
  - repeat split; auto.
  - destruct (Ascii.eqb_spec ch " ") as [->|Hne]; simpl.
    + split; [tauto | reflexivity].
    + split; [intros [H|H]; [congruence | tauto]|].
      destruct (snd (commandbot.SplitN2 body)) as [rest|].
      * now rewrite <- IH2.
      * destruct IH2 as [IH2 IH3]. split; [now rewrite <- IH2|].
        simpl. intros [H|H]; [congruence | tauto].
Qed.

Section Commands.

Context {MessageHandler Handler_ : Type}.
Variable run : Handler_ -> @Bot MessageHandler -> id.RoomID -> id.UserID -> string ->
               list (@Obs MessageHandler) * Outcome unit.
Variable transmit_text : id.RoomID -> string -> option error.

Lemma find_first_match (before after : list (commandbot.command Handler_))
    (cmd : commandbot.command Handler_) cmdName args b roomID sender :
  (forall x, In x before -> commandbot.Name x <> cmdName) ->
  commandbot.Name cmd = cmdName ->
  commandbot.find run transmit_text (before ++ cmd :: after) cmdName args b roomID sender
  = run (commandbot.Handler cmd) b roomID sender args.
Proof.
  intros Hbefore Hcmd. induction before as [|x before IH]; simpl.
  - apply String.eqb_eq in Hcmd. now rewrite Hcmd.
  - assert (Hx : commandbot.Name x <> cmdName) by (apply Hbefore; now left).
    apply String.eqb_neq in Hx. rewrite Hx. apply IH.
    intros y Hy. apply Hbefore. now right.
Qed.

Lemma find_no_match (commands : list (commandbot.command Handler_))
    cmdName args b roomID sender :
  (forall x, In x commands -> commandbot.Name x <> cmdName) ->
  commandbot.find run transmit_text commands cmdName args b roomID sender
  = dropped (SendText transmit_text b roomID
               (String.concat ""
                  ["Unknown command: "; cmdName; ". Type !help for available commands."])).
Proof.
  intros Hnone. induction commands as [|x commands IH]; simpl; [reflexivity|].
  assert (Hx : commandbot.Name x <> cmdName) by (apply Hnone; now left).
  apply String.eqb_neq in Hx. rewrite Hx. apply IH.
  intros y Hy. apply Hnone. now right.
Qed.

End Commands.

(** X23: the dispatcher of [examples/commandbot], on a bot with its client in
    place.  A message whose trimmed body does not begin with "!" is ignored
    without a trace.  Otherwise the line is printed, the name is the
    lower-cased part before the first space and the arguments are the trimmed
    rest; the first command of the list that bears the name runs, once and
    alone, with these arguments; and when no command bears the name the bot
    sends the one text "Unknown command: <name>. Type !help for available
    commands." *)
Theorem on_command_dispatches :
  forall (MessageHandler Handler_ : Type)
         (run : Handler_ -> @Bot MessageHandler -> id.RoomID -> id.UserID -> string ->
                list (@Obs MessageHandler) * Outcome unit)
         (transmit_text : id.RoomID -> string -> option error)
         (TrimSpace ToLower : string -> string)
         (commands : list (commandbot.command Handler_))
         (b : @Bot MessageHandler) (c : mautrix.Client)
         (roomID : id.RoomID) (sender : id.UserID) (msg : event.MessageEventContent),
    client b = Some c ->
    let body := TrimSpace (event.Body msg) in
    let cmdName := ToLower (fst (commandbot.SplitN2 body)) in
    let args := match snd (commandbot.SplitN2 body) with
                | Some rest => TrimSpace rest
                | None => ""
                end in
    let line := Stdout (String.concat "" ["["; roomID; "] "; sender; ": "; body; LF]) in
    (strings.HasPrefix body "!" = false ->
     commandbot.on_command run transmit_text TrimSpace ToLower commands b roomID sender msg
     = ([], Returns tt))
    /\ (forall before cmd after,
          strings.HasPrefix body "!" = true ->
          commands = before ++ cmd :: after ->
          (forall x, In x before -> commandbot.Name x <> cmdName) ->
          commandbot.Name cmd = cmdName ->
          commandbot.on_command run transmit_text TrimSpace ToLower commands
                                b roomID sender msg
          = (line :: fst (run (commandbot.Handler cmd) b roomID sender args),
             snd (run (commandbot.Handler cmd) b roomID sender args)))
    /\ (strings.HasPrefix body "!" = true ->
        (forall x, In x commands -> commandbot.Name x <> cmdName) ->
        commandbot.on_command run transmit_text TrimSpace ToLower commands
                              b roomID sender msg
        = ([line;
            OnBot (SendText_ roomID
                     (String.concat ""
                        ["Unknown command: "; cmdName;
                         ". Type !help for available commands."]))],
           Returns tt)).
Proof.
  intros MessageHandler Handler_ run transmit_text TrimSpace ToLower commands
         b c roomID sender msg Hc body cmdName args line.
  unfold commandbot.on_command. fold body.
  split; [|split].
  - intros ->. reflexivity.
  - intros before cmd after -> -> Hbefore Hcmd. cbn [negb].
    fold cmdName args. now rewrite (find_first_match run transmit_text).
  - intros -> Hnone. cbn [negb].
    fold cmdName args. rewrite (find_no_match run transmit_text) by exact Hnone.
    unfold dropped, SendText, the_client. rewrite Hc. reflexivity.
Qed.

Lemma on_command_dispatches_witness :
  commandbot.on_command
    (fun (h : string) (_ : @Bot Sample) roomID _ args =>
       ([OnBot (SendText_ roomID (String.append h args))], Returns tt))
    (fun _ _ => None) (fun t => t) (fun t => t)
    [{| commandbot.Name := "!help"; commandbot.Description := "Show available commands";
        commandbot.Usage := "!help"; commandbot.Handler := "help" |};
     {| commandbot.Name := "!ping"; commandbot.Description := "Check if the bot is alive";
        commandbot.Usage := "!ping"; commandbot.Handler := "pong!" |}]
    sample_running "!R1:example" "@alice:example"
    {| event.MsgType := event.MsgText; event.Body := "!ping now";
       event.Format_ := ""; event.FormattedBody := ""; event.Mentions_ := None |}
  = ([Stdout (String.concat ""
                ["["; "!R1:example"; "] "; "@alice:example"; ": "; "!ping now"; LF]);
      OnBot (SendText_ "!R1:example" "pong!now")],
     Returns tt).
Proof.
  refine (proj1 (proj2
            (on_command_dispatches Sample string
               (fun (h : string) (_ : @Bot Sample) roomID _ args =>
                  ([OnBot (SendText_ roomID (String.append h args))], Returns tt))
               (fun _ _ => None) (fun t => t) (fun t => t)
               [{| commandbot.Name := "!help";
                   commandbot.Description := "Show available commands";
                   commandbot.Usage := "!help"; commandbot.Handler := "help" |};
                {| commandbot.Name := "!ping";
                   commandbot.Description := "Check if the bot is alive";
                   commandbot.Usage := "!ping"; commandbot.Handler := "pong!" |}]
               sample_running sample_client "!R1:example" "@alice:example"
               {| event.MsgType := event.MsgText; event.Body := "!ping now";
                  event.Format_ := ""; event.FormattedBody := "";
                  event.Mentions_ := None |}
               eq_refl))
            [{| commandbot.Name := "!help";
                commandbot.Description := "Show available commands";
                commandbot.Usage := "!help"; commandbot.Handler := "help" |}]
            {| commandbot.Name := "!ping";
               commandbot.Description := "Check if the bot is alive";
               commandbot.Usage := "!ping"; commandbot.Handler := "pong!" |}
            [] eq_refl eq_refl _ eq_refl).
  intros x [<-|[]]. discriminate.
Defined.
